(** * SeleniumLibrary: the failure hook of the library facade and the
      cookie keywords

    A shallow embedding of
    - [src/SeleniumLibrary/__init__.py]: [SeleniumLibrary.run_keyword],
      [SeleniumLibrary.failure_occurred] and the [browser] property;
    - [src/SeleniumLibrary/keywords/cookie.py]: [CookieKeywords] and
      [CookieInformation].

    Python objects are values of [pyval], dictionaries with string keys are
    [gmap string pyval], a raised exception is the [Raise] outcome of a
    computation, and methods that read or write the library instance are
    state transformers in the monad [M]. *)

From Stdlib Require Import ZArith String Ascii List Lia.
From stdpp Require Import base option gmap strings pretty list fin_maps.

Local Open Scope Z_scope.
Local Open Scope string_scope.
Local Open Scope list_scope.

(** ** Python values and exceptions *)

Module Py.

(** [datetime.datetime] objects, naive (no tzinfo), as the standard library
    builds them. *)
Record datetime := mk_datetime {
  year : Z; month : Z; day : Z;
  hour : Z; minute : Z; second : Z; microsecond : Z
}.

(** The objects that reach the modelled code: [None], booleans, integers,
    strings and [datetime] objects. *)
Inductive pyval :=
| PNone
| PBool (b : bool)
| PInt (n : Z)
| PStr (s : string)
| PDatetime (dt : datetime).

(** Exception classes.  [KeyboardInterrupt] and [SystemExit] derive from
    [BaseException] only; every other class derives from [Exception].
    [CookieNotFound] is the library's own error (SeleniumLibrary.errors);
    [ExecutionFailed] is what the host raises when a keyword it runs fails. *)
Inductive exc_class :=
| ValueError | TypeError | KeyError | RuntimeError | OverflowError
| CookieNotFound | ExecutionFailed
| KeyboardInterrupt | SystemExit.

Record exn := mk_exn { exn_class : exc_class; exn_msg : string }.

(** [isinstance(e, Exception)], the test of an [except Exception] clause. *)
Definition is_Exception (e : exn) : bool :=
  match exn_class e with
  | KeyboardInterrupt | SystemExit => false
  | _ => true
  end.

(** [isinstance(e, ValueError)], the test of an [except ValueError] clause. *)
Definition is_ValueError (e : exn) : bool :=
  match exn_class e with
  | ValueError => true
  | _ => false
  end.

(** The outcome of evaluating an expression or running a statement. *)
Inductive result (A : Type) :=
| Ok (a : A)
| Raise (e : exn).
Arguments Ok {A} a.
Arguments Raise {A} e.

Definition rbind {A B} (r : result A) (f : A → result B) : result B :=
  match r with
  | Ok a => f a
  | Raise e => Raise e
  end.

(** [bool(x)]: Python's truth value testing. *)
Definition truth (v : pyval) : bool :=
  match v with
  | PNone => false
  | PBool b => b
  | PInt n => negb (Z.eqb n 0)
  | PStr s => negb (String.eqb s "")
  | PDatetime _ => true
  end.

(** *** Computations over a state

    A method body is a function from the state before to an outcome and the
    state after; a raised exception keeps the writes made before it. *)
Definition M (S A : Type) : Type := S → result A * S.

Definition ret {S A} (a : A) : M S A := fun s => (Ok a, s).
Definition raise {S A} (e : exn) : M S A := fun s => (Raise e, s).
Definition bind {S A B} (m : M S A) (f : A → M S B) : M S B :=
  fun s => match m s with
           | (Ok a, s') => f a s'
           | (Raise e, s') => (Raise e, s')
           end.
Definition gets {S A} (f : S → A) : M S A := fun s => (Ok (f s), s).
Definition modify {S} (f : S → S) : M S unit := fun s => (Ok tt, f s).
Definition lift {S A} (r : result A) : M S A := fun s => (r, s).

(** [try: body  except <class> as e: handler e] *)
Definition try_except {S A} (body : M S A) (catches : exn → bool)
    (handler : exn → M S A) : M S A :=
  fun s => match body s with
           | (Ok a, s') => (Ok a, s')
           | (Raise e, s') => if catches e then handler e s' else (Raise e, s')
           end.

(** [try: body  finally: final].  The [finally] block runs on every exit of
    [body]; an exception of [final] replaces the pending outcome. *)
Definition try_finally {S A} (body : M S A) (final : M S unit) : M S A :=
  fun s => match body s with
           | (r, s') => match final s' with
                        | (Ok _, s'') => (r, s'')
                        | (Raise e, s'') => (Raise e, s'')
                        end
           end.

End Py.

Declare Scope py_scope.
Delimit Scope py_scope with py.
Notation "'let*' x ':=' m 'in' k" := (Py.bind m (fun x => k))
  (at level 10, x name, m at level 100, k at level 200,
   format "'[v' 'let*'  x  ':='  m  'in' '/' k ']'") : py_scope.
Notation "m ';;' k" := (Py.bind m (fun _ => k))
  (at level 100, k at level 200, right associativity) : py_scope.
Notation "'let+' x ':=' r 'in' k" := (Py.rbind r (fun x => k))
  (at level 10, x name, r at level 100, k at level 200,
   format "'[v' 'let+'  x  ':='  r  'in' '/' k ']'") : py_scope.
Local Open Scope py_scope.

(** ** The builtins [int] and [str] on the modelled values *)

Module Builtins.
Import Py.

(** Characters that [int] strips around a literal (the ASCII part of
    [str.isspace]): tab to carriage return, the separators 0x1c-0x1f and
    the space. *)
Definition is_space (c : ascii) : bool :=
  let n := nat_of_ascii c in
  ((9 <=? n) && (n <=? 13) || (28 <=? n) && (n <=? 32))%nat.

Definition is_digit (c : ascii) : bool :=
  let n := nat_of_ascii c in ((48 <=? n) && (n <=? 57))%nat.

Definition digit_val (c : ascii) : Z := Z.of_nat (nat_of_ascii c) - 48.

(** The value of a run of decimal digits, after the value [acc] of the
    digits before it. *)
Fixpoint digits_value (cs : list ascii) (acc : Z) : Z :=
  match cs with
  | [] => acc
  | c :: cs' => digits_value cs' (10 * acc + digit_val c)
  end.

(** A numeric string: decimal digits, and at least one. *)
Definition is_numeric (s : string) : bool :=
  negb (String.eqb s "") && forallb is_digit (list_ascii_of_string s).

Definition decimal (s : string) : Z := digits_value (list_ascii_of_string s) 0.

(** The digit part of a base-10 literal: one or more digits, where single
    underscores may separate digits (Python 3.6 and later).  [acc] is the
    value read so far and [after_digit] tells whether the previous character
    was a digit. *)
Fixpoint int_digits (cs : list ascii) (acc : Z) (after_digit : bool)
    : option Z :=
  match cs with
  | [] => if after_digit then Some acc else None
  | c :: cs' =>
      if is_digit c then int_digits cs' (10 * acc + digit_val c) true
      else if Ascii.eqb c "_" && after_digit then int_digits cs' acc false
      else None
  end.

Fixpoint lstrip (cs : list ascii) : list ascii :=
  match cs with
  | c :: cs' => if is_space c then lstrip cs' else cs
  | [] => []
  end.

Definition strip (cs : list ascii) : list ascii :=
  rev (lstrip (rev (lstrip cs))).

(** A base-10 literal: surrounding white space, an optional sign and the
    digits. *)
Definition int_of_literal (s : string) : option Z :=
  match strip (list_ascii_of_string s) with
  | "+"%char :: cs => int_digits cs 0 false
  | "-"%char :: cs => Z.opp <$> int_digits cs 0 false
  | cs => int_digits cs 0 false
  end.

(** What depends on the interpreter and its platform, and not on the
    library.  [int_of_text s] is [int(s)] for a string that is not plain
    (see [plain]), [None] standing for the [ValueError]: the digits and
    the white space outside of ASCII come from the Unicode tables of the
    interpreter, the underscore is read from Python 3.6 on, and the digits
    over the limit of [sys.set_int_max_str_digits] are refused.
    [fromtimestamp_beyond t] is [datetime.fromtimestamp(t)] for a timestamp
    outside of the range that every [time_t] and [localtime] take: a
    [datetime] or one of [OverflowError], [OSError] and [ValueError]. *)
Class Interpreter := {
  int_of_text : string → option Z;
  fromtimestamp_beyond : Z → result datetime
}.

(** The characters that every interpreter reads alike in a literal:
    ASCII, but for the underscore and the separators 0x1c-0x1f (white
    space in text, not in bytes). *)
Definition is_plain_char (c : ascii) : bool :=
  let n := nat_of_ascii c in
  ((n <? 128) && negb (n =? 95) && negb ((28 <=? n) && (n <=? 31)))%nat.

(** A plain string: plain characters, and at most 640 of them, which is
    under every limit on the digits of a literal. *)
Definition plain (s : string) : bool :=
  (String.length s <=? 640)%nat
  && forallb is_plain_char (list_ascii_of_string s).

(** [int(s)] for a string [s]; [None] stands for the [ValueError]. *)
Definition int_of_string {interp : Interpreter} (s : string) : option Z :=
  if plain s then int_of_literal s else int_of_text s.

(** The string of one line feed. *)
Definition newline : string := String (ascii_of_nat 10) "".

(** The number of line feeds in a string. *)
Fixpoint count_newlines (s : string) : nat :=
  match s with
  | EmptyString => 0
  | String c s' =>
      ((if Ascii.eqb c (ascii_of_nat 10) then 1 else 0) + count_newlines s')%nat
  end.

(** The zero-padded decimal fields of [str(datetime)]: zeros in front of
    [s] up to the width. *)
Definition zfill (width : nat) (s : string) : string :=
  string_of_list_ascii (repeat "0"%char (width - String.length s)) +:+ s.

Definition str_datetime (dt : datetime) : string :=
  zfill 4 (pretty (year dt)) +:+ "-" +:+ zfill 2 (pretty (month dt)) +:+ "-"
  +:+ zfill 2 (pretty (day dt)) +:+ " " +:+ zfill 2 (pretty (hour dt)) +:+ ":"
  +:+ zfill 2 (pretty (minute dt)) +:+ ":" +:+ zfill 2 (pretty (second dt))
  +:+ (if Z.eqb (microsecond dt) 0 then ""
       else "." +:+ zfill 6 (pretty (microsecond dt))).

(** [str(v)], as the [%s] conversion of a message uses it. *)
Definition str (v : pyval) : string :=
  match v with
  | PNone => "None"
  | PBool true => "True"
  | PBool false => "False"
  | PInt n => pretty n
  | PStr s => s
  | PDatetime dt => str_datetime dt
  end.

(** [int(v)].  A string that is no literal raises [ValueError]; [None] and
    [datetime] objects raise [TypeError]. *)
Definition int {interp : Interpreter} (v : pyval) : result Z :=
  match v with
  | PInt n => Ok n
  | PBool b => Ok (if b then 1 else 0)
  | PStr s =>
      match int_of_string s with
      | Some n => Ok n
      | None =>
          Raise (mk_exn ValueError
                   ("invalid literal for int() with base 10: '" +:+ s +:+ "'"))
      end
  | PNone =>
      Raise (mk_exn TypeError
               "int() argument must be a string or a number, not 'NoneType'")
  | PDatetime _ =>
      Raise (mk_exn TypeError
               "int() argument must be a string or a number, not 'datetime.datetime'")
  end.

End Builtins.

(** ** Calendar arithmetic of [datetime], [time] and Robot Framework's
       [DateTime] library

    [datetime.fromtimestamp] and [robot.libraries.DateTime.convert_date] are
    libraries the code calls.  They are modelled after their documented
    behaviour on the proleptic Gregorian calendar, with local time a fixed
    offset [tz] (in seconds, east of UTC) from UTC. *)

Module DateTime.
Import Py Builtins.

Definition _is_leap (y : Z) : bool :=
  Z.eqb (y mod 4) 0 && (negb (Z.eqb (y mod 100) 0) || Z.eqb (y mod 400) 0).

Definition _days_before_year (y : Z) : Z :=
  let y1 := y - 1 in y1 * 365 + y1 / 4 - y1 / 100 + y1 / 400.

Definition _days_in_month (y m : Z) : Z :=
  if Z.eqb m 2 then (if _is_leap y then 29 else 28)
  else if Z.eqb m 4 || Z.eqb m 6 || Z.eqb m 9 || Z.eqb m 11 then 30
  else 31.

(** Days of the year before the first of month [m]. *)
Fixpoint days_before (y : Z) (m : nat) : Z :=
  match m with
  | O => 0
  | S m' => days_before y m' + _days_in_month y (Z.of_nat m)
  end.

Definition _days_before_month (y m : Z) : Z := days_before y (Z.to_nat (m - 1)).

(** The ordinal of a date: 1 for 0001-01-01. *)
Definition _ymd2ord (y m d : Z) : Z :=
  _days_before_year y + _days_before_month y m + d.

(** The month and the day of the zero-based day [n] of year [y], searching
    the months from [m] on. *)
Fixpoint month_day (y : Z) (n : Z) (m : Z) (fuel : nat) : Z * Z :=
  match fuel with
  | O => (m, n + 1)
  | S fuel' =>
      let dim := _days_in_month y m in
      if Z.ltb n dim then (m, n + 1) else month_day y (n - dim) (m + 1) fuel'
  end.

Definition _DI400Y : Z := 146097.
Definition _DI100Y : Z := 36524.
Definition _DI4Y : Z := 1461.

(** The date of an ordinal. *)
Definition _ord2ymd (ord : Z) : Z * Z * Z :=
  let n := ord - 1 in
  let n400 := n / _DI400Y in let n := n mod _DI400Y in
  let n100 := n / _DI100Y in let n := n mod _DI100Y in
  let n4 := n / _DI4Y in let n := n mod _DI4Y in
  let n1 := n / 365 in let n := n mod 365 in
  let y := n400 * 400 + 1 + n100 * 100 + n4 * 4 + n1 in
  if Z.eqb n1 4 || Z.eqb n100 4 then (y - 1, 12, 31)
  else let '(m, d) := month_day y n 1 11 in (y, m, d).

(** The ordinal of 1970-01-01. *)
Definition epoch_ordinal : Z := 719163.

Section LocalTime.
Context {interp : Interpreter}.
Variable tz : Z.

(** [time.localtime(t)] as year, month, day, hour, minute, second. *)
Definition localtime (t : Z) : datetime :=
  let l := t + tz in
  let '(y, m, d) := _ord2ymd (epoch_ordinal + l / 86400) in
  let sod := l mod 86400 in
  mk_datetime y m d (sod / 3600) (sod mod 3600 / 60) (sod mod 60) 0.

(** [time.mktime(dt.timetuple())]: seconds since the epoch of a local time. *)
Definition mktime (dt : datetime) : Z :=
  (_ymd2ord (year dt) (month dt) (day dt) - epoch_ordinal) * 86400
  + hour dt * 3600 + minute dt * 60 + second dt - tz.

(** [datetime.fromtimestamp(t)] for the values a wire map can hold.  From
    the epoch to the end of a signed 32-bit [time_t] (1970 to 2038) the
    result is the local time; what comes of another timestamp is the
    platform's.  Anything that is no number is refused. *)
Definition fromtimestamp (t : pyval) : result datetime :=
  let of_int n :=
    if Z.leb 0 n && Z.ltb n 2147483648 then Ok (localtime n)
    else fromtimestamp_beyond n in
  match t with
  | PInt n => of_int n
  | PBool b => of_int (if b then 1 else 0)
  | _ => Raise (mk_exn TypeError "an integer is required")
  end.

(** *** [robot.libraries.DateTime.convert_date(date, result_format='epoch')] *)

(** An epoch float such as [1822137695.5], kept exactly as a count of
    microseconds; [int] of it truncates towards zero. *)
Definition epoch_float := Z.
Definition int_of_float (us : epoch_float) : Z := Z.quot us 1000000.

Definition field (ts : list ascii) (start len : nat) : Z :=
  digits_value (take len (drop start ts)) 0.

(** [Date._normalize_timestamp] followed by
    [datetime.strptime(ts, '%Y-%m-%d %H:%M:%S.%f')]: the digits of the input,
    8 to 20 of them, padded with zeros on the right to 20, are read as year,
    month, day, hour, minute, second and a six-digit fraction. *)
Definition _string_to_datetime (date : string) : result datetime :=
  let ts := filter (fun c => is_digit c = true) (list_ascii_of_string date) in
  let len := length ts in
  if negb ((8 <=? len)%nat && (len <=? 20)%nat) then
    Raise (mk_exn ValueError ("Invalid timestamp '" +:+ date +:+ "'."))
  else
    let ts := (ts ++ repeat "0"%char (20 - len))%list in
    let dt := mk_datetime (field ts 0 4) (field ts 4 2) (field ts 6 2)
                (field ts 8 2) (field ts 10 2) (field ts 12 2)
                (field ts 14 6) in
    if Z.leb 1 (year dt) && Z.leb 1 (month dt) && Z.leb (month dt) 12
       && Z.leb 1 (day dt) && Z.leb (day dt) (_days_in_month (year dt) (month dt))
       && Z.leb (hour dt) 23 && Z.leb (minute dt) 59 && Z.leb (second dt) 59
    then Ok dt
    else Raise (mk_exn ValueError
                  ("time data '" +:+ date +:+ "' does not match format")).

(** [Date._mktime_with_millis]. *)
Definition _mktime_with_millis (dt : datetime) : epoch_float :=
  mktime dt * 1000000 + microsecond dt.

Definition convert_date (date : pyval) : result epoch_float :=
  match date with
  | PStr s => let+ dt := _string_to_datetime s in Ok (_mktime_with_millis dt)
  | PDatetime dt => Ok (_mktime_with_millis dt)
  | PInt n => Ok (n * 1000000)
  | PBool b => Ok (if b then 1000000 else 0)
  | PNone => Raise (mk_exn ValueError "Unsupported input 'None'.")
  end.

End LocalTime.
End DateTime.

(** ** src/SeleniumLibrary/__init__.py *)

Module Library.
Import Py Builtins.

(** The library instance, with the fields the modelled methods use, and the
    warnings that [robot.api.logger] has received.  [_browsers_current] is
    [self._browsers.current]: the active browser, if one is open. *)
Record SeleniumLibrary (Browser : Type) := mkSeleniumLibrary {
  run_on_failure_keyword : pyval;
  _running_on_failure_keyword : bool;
  _browsers_current : option Browser;
  warnings : list string
}.
Arguments mkSeleniumLibrary {Browser} _ _ _ _.
Arguments run_on_failure_keyword {Browser} _.
Arguments _running_on_failure_keyword {Browser} _.
Arguments _browsers_current {Browser} _.
Arguments warnings {Browser} _.

(** What the facade calls and does not define: the keyword dispatch of
    its base class, [DynamicCore.run_keyword(self, name, args, kwargs)], and
    the host's [BuiltIn().run_keyword(name)].  Both run arbitrary keyword
    code on the library instance. *)
Class Host (Browser : Type) := {
  DynamicCore_run_keyword :
    string → list pyval → list (string * pyval) →
    M (SeleniumLibrary Browser) pyval;
  BuiltIn_run_keyword : pyval → M (SeleniumLibrary Browser) pyval
}.

Section Facade.
Context {Browser : Type} {host : Host Browser}.

Local Abbreviation Self := (SeleniumLibrary Browser).

Definition set_running (b : bool) (self : Self) : Self :=
  mkSeleniumLibrary (run_on_failure_keyword self) b
    (_browsers_current self) (warnings self).

Definition set_browser (br : Browser) (self : Self) : Self :=
  mkSeleniumLibrary (run_on_failure_keyword self)
    (_running_on_failure_keyword self) (Some br) (warnings self).

(** [logger.warn(msg)] *)
Definition logger_warn (msg : string) : M Self unit :=
  modify (fun self =>
    mkSeleniumLibrary (run_on_failure_keyword self)
      (_running_on_failure_keyword self) (_browsers_current self)
      (warnings self ++ [msg])).

(** ["Keyword '%s' could not be run on failure: %s" % (keyword, err)] *)
Definition could_not_be_run (keyword : pyval) (err : exn) : string :=
  "Keyword '" +:+ str keyword +:+ "' could not be run on failure: "
  +:+ exn_msg err.

(** The [try] statement of [failure_occurred]: the guard goes up, the
    keyword runs, an [Exception] is logged as a warning, and on every exit
    the guard goes down. *)
Definition run_on_failure : M Self unit :=
  try_finally
    (try_except
       (modify (set_running true) ;;
        let* keyword := gets run_on_failure_keyword in
        BuiltIn_run_keyword keyword ;;
        ret tt)
       is_Exception
       (fun err =>
          let* keyword := gets run_on_failure_keyword in
          logger_warn (could_not_be_run keyword err)))
    (modify (set_running false)).

(** [SeleniumLibrary.failure_occurred] *)
Definition failure_occurred : M Self unit :=
  fun self =>
    if _running_on_failure_keyword self
       || negb (truth (run_on_failure_keyword self))
    then (Ok tt, self)
    else run_on_failure self.

(** [SeleniumLibrary.run_keyword] *)
Definition run_keyword (name : string) (args : list pyval)
    (kwargs : list (string * pyval)) : M Self pyval :=
  try_except (DynamicCore_run_keyword name args kwargs)
    is_Exception
    (fun e => failure_occurred ;; raise e).

(** The [browser] property. *)
Definition browser : M Self Browser :=
  fun self =>
    match _browsers_current self with
    | Some br => (Ok br, self)
    | None => (Raise (mk_exn RuntimeError "No browser is open"), self)
    end.

(** The error of the [browser] property. *)
Definition no_browser_is_open : exn := mk_exn RuntimeError "No browser is open".

(** [self.browser.method(...)]: the call runs on the active browser, which
    it may change. *)
Definition on_browser {A} (method : M Browser A) : M Self A :=
  let* br := browser in
  fun self => let '(r, br') := method br in (r, set_browser br' self).

(** A computation that leaves the guard of [failure_occurred] as it finds
    it. *)
Definition keeps_guard {A} (m : M Self A) : Prop :=
  ∀ s, _running_on_failure_keyword (m s).2 = _running_on_failure_keyword s.

(** A computation that works on the browser only: the run-on-failure
    keyword, the guard and the warnings stay as they are, and a browser is
    open afterwards exactly when one was open before. *)
Definition browser_only {A} (m : M Self A) : Prop :=
  ∀ s,
    run_on_failure_keyword (m s).2 = run_on_failure_keyword s
    ∧ _running_on_failure_keyword (m s).2 = _running_on_failure_keyword s
    ∧ warnings (m s).2 = warnings s
    ∧ (is_Some (_browsers_current (m s).2) ↔ is_Some (_browsers_current s)).

End Facade.

(** The host when the run-on-failure keyword is a keyword of this library:
    [BuiltIn().run_keyword(name)] comes back into the library's own
    [run_keyword], where the keyword's failure handling uses [inner]. *)
Definition library_hook {Browser} (inner : Host Browser) : Host Browser :=
  {| DynamicCore_run_keyword := DynamicCore_run_keyword (Host := inner);
     BuiltIn_run_keyword :=
       fun kw => run_keyword (host := inner) (str kw) [] [] |}.

End Library.

(** ** src/SeleniumLibrary/keywords/cookie.py *)

Module Cookie.
Import Py Builtins Library.

(** A cookie as the WebDriver client passes it: a dictionary. *)
Abbreviation wire_map := (gmap string pyval).

(** [SeleniumLibrary.utils.is_truthy] and [is_noney], which the module
    imports. *)
Class Utils := {
  is_truthy : pyval → bool;
  is_noney : pyval → bool
}.

(** What the utilities are taken to do on [None] and on booleans: [None] is
    none-like, a boolean is not, and a boolean is as true as it is. *)
Definition utils_on_booleans {utils : Utils} : Prop :=
  is_noney PNone = true
  ∧ ∀ b, is_noney (PBool b) = false ∧ is_truthy (PBool b) = b.

(** The two date conversions the module calls:
    [convert_date(date, result_format='epoch')] of Robot Framework's
    DateTime library and [datetime.fromtimestamp]. *)
Class Dates := {
  convert_date : pyval → result DateTime.epoch_float;
  fromtimestamp : pyval → result datetime
}.

(** The cookie methods of the WebDriver browser object. *)
Class WebDriver (Browser : Type) := {
  wd_get_cookies : M Browser (list wire_map);
  wd_get_cookie : pyval → M Browser (option wire_map);
  wd_add_cookie : wire_map → M Browser unit;
  wd_delete_cookie : pyval → M Browser unit;
  wd_delete_all_cookies : M Browser unit
}.

(** [d[key]] *)
Definition getitem (d : wire_map) (key : string) : result pyval :=
  match d !! key with
  | Some v => Ok v
  | None => Raise (mk_exn KeyError ("'" +:+ key +:+ "'"))
  end.

(** [a + b] on strings and on integers *)
Definition add (a b : pyval) : result pyval :=
  let as_int v := match v with
                  | PInt n => Some n
                  | PBool b => Some (if b then 1 else 0)
                  | _ => None
                  end in
  match a, b with
  | PStr s, PStr t => Ok (PStr (s +:+ t))
  | _, _ =>
      match as_int a, as_int b with
      | Some m, Some n => Ok (PInt (m + n))
      | _, _ => Raise (mk_exn TypeError "unsupported operand type(s) for +")
      end
  end.

(** [sep.join(items)]: every item must be a string. *)
Fixpoint join (sep : string) (items : list pyval) : result string :=
  match items with
  | [] => Ok ""
  | [PStr s] => Ok s
  | PStr s :: rest => let+ t := join sep rest in Ok (s +:+ sep +:+ t)
  | _ :: _ => Raise (mk_exn TypeError "sequence item: expected str instance")
  end.

(** *** [CookieInformation] *)

Record CookieInformation := mkCookieInformation {
  name : pyval;
  value : pyval;
  path : pyval;
  domain : pyval;
  secure : pyval;
  httpOnly : pyval;
  expiry : pyval
}.

(** The parameters of [CookieInformation.__init__]. *)
Definition parameters : gset string :=
  {[ "name"; "value"; "path"; "domain"; "secure"; "httpOnly"; "expiry" ]}.

(** The keys that [add_cookie] can write. *)
Definition add_cookie_keys : gset string :=
  {[ "name"; "value"; "path"; "domain"; "secure"; "expiry" ]}.

(** A cookie whose name and value are the strings of [nv], and the text
    ["name=value"] for it. *)
Definition carries (cookie : wire_map) (nv : string * string) : Prop :=
  cookie !! "name" = Some (PStr nv.1) ∧ cookie !! "value" = Some (PStr nv.2).

Definition pair_of (nv : string * string) : string := (nv.1 +:+ "=") +:+ nv.2.

Section Keywords.
Context {interp : Interpreter} {utils : Utils} {dates : Dates}
  {Browser : Type} {driver : WebDriver Browser}.

Local Abbreviation Self := (SeleniumLibrary Browser).

(** The call of [CookieInformation] with the dictionary unpacked as keyword
    arguments: binding the keyword arguments fails
    with [TypeError] for a key that is no parameter and for a missing
    [name] or [value]; the other parameters have defaults. *)
Definition CookieInformation__init__ (cookie : wire_map)
    : result CookieInformation :=
  if negb (bool_decide (dom cookie ⊆ parameters)) then
    Raise (mk_exn TypeError "__init__() got an unexpected keyword argument")
  else
    match cookie !! "name", cookie !! "value" with
    | Some name, Some value =>
        let path := default PNone (cookie !! "path") in
        let domain := default PNone (cookie !! "domain") in
        let secure := default (PBool false) (cookie !! "secure") in
        let httpOnly := default (PBool false) (cookie !! "httpOnly") in
        let expiry := default PNone (cookie !! "expiry") in
        let+ expiry :=
          (if truth expiry
           then let+ dt := fromtimestamp expiry in Ok (PDatetime dt)
           else Ok PNone) in
        Ok (mkCookieInformation name value path domain secure httpOnly expiry)
    | _, _ =>
        Raise (mk_exn TypeError "__init__() missing required positional argument")
    end.

(** The attributes [CookieInformation.__str__] prints, in its order. *)
Definition items (self : CookieInformation) : list (string * pyval) :=
  [ ("name", name self); ("value", value self); ("path", path self);
    ("domain", domain self); ("secure", secure self);
    ("httpOnly", httpOnly self); ("expiry", expiry self) ].

(** [CookieInformation.__str__]: one ['{}={}'.format(item, value)] per
    attribute, joined by newlines. *)
Definition CookieInformation__str__ (self : CookieInformation) : string :=
  String.concat newline
    (map (fun iv => (iv.1 +:+ "=") +:+ str iv.2) (items self)).

(** [CookieKeywords.delete_all_cookies] *)
Definition delete_all_cookies : M Self unit :=
  on_browser wd_delete_all_cookies.

(** [CookieKeywords.delete_cookie] *)
Definition delete_cookie (name : pyval) : M Self unit :=
  on_browser (wd_delete_cookie name).

(** The loop of [get_cookies]: one ["name=value"] appended per cookie. *)
Fixpoint get_cookies_pairs (cookies : list wire_map) (pairs : list pyval)
    : result (list pyval) :=
  match cookies with
  | [] => Ok pairs
  | cookie :: rest =>
      let+ n := getitem cookie "name" in
      let+ left := add n (PStr "=") in
      let+ v := getitem cookie "value" in
      let+ pair := add left v in
      get_cookies_pairs rest (pairs ++ [pair])
  end.

(** [CookieKeywords.get_cookies] *)
Definition get_cookies : M Self string :=
  let* cookies := on_browser wd_get_cookies in
  let* pairs := lift (get_cookies_pairs cookies []) in
  lift (join "; " pairs).

(** [CookieKeywords.get_cookie_value].  Only [None] counts as a missing
    cookie here. *)
Definition get_cookie_value (name : pyval) : M Self pyval :=
  let* cookie := on_browser (wd_get_cookie name) in
  match cookie with
  | Some c => lift (getitem c "value")
  | None =>
      raise (mk_exn ValueError
               ("Cookie with name " +:+ str name +:+ " not found."))
  end.

(** [CookieKeywords.get_cookie].  [not cookie] holds for [None] and for
    an empty dictionary. *)
Definition get_cookie (name : pyval) : M Self CookieInformation :=
  let* cookie := on_browser (wd_get_cookie name) in
  match cookie with
  | Some c =>
      if bool_decide (c = ∅) then
        raise (mk_exn CookieNotFound
                 ("Cookie with name '" +:+ str name +:+ "' not found."))
      else lift (CookieInformation__init__ c)
  | None =>
      raise (mk_exn CookieNotFound
               ("Cookie with name '" +:+ str name +:+ "' not found."))
  end.

(** [CookieKeywords._expiry] *)
Definition _expiry (expiry : pyval) : result Z :=
  match int expiry with
  | Ok n => Ok n
  | Raise e =>
      if is_ValueError e
      then let+ epoch := convert_date expiry in Ok (DateTime.int_of_float epoch)
      else Raise e
  end.

(** The dictionary [new_cookie] that [add_cookie] builds. *)
Definition new_cookie (name value path domain secure expiry : pyval)
    : result wire_map :=
  let new_cookie : wire_map := <["value" := value]> (<["name" := name]> ∅) in
  let new_cookie :=
    if negb (is_noney path) then <["path" := path]> new_cookie
    else new_cookie in
  let new_cookie :=
    if negb (is_noney domain) then <["domain" := domain]> new_cookie
    else new_cookie in
  let new_cookie :=
    if negb (is_noney secure)
    then <["secure" := PBool (is_truthy secure)]> new_cookie
    else new_cookie in
  if negb (is_noney expiry)
  then let+ e := _expiry expiry in Ok (<["expiry" := PInt e]> new_cookie)
  else Ok new_cookie.

(** [CookieKeywords.add_cookie]; an argument left out is [None]. *)
Definition add_cookie (name value path domain secure expiry : pyval)
    : M Self unit :=
  let* new_cookie := lift (new_cookie name value path domain secure expiry) in
  on_browser (wd_add_cookie new_cookie).

End Keywords.
End Cookie.

(** ** The cookie translation as the specification names it *)

Module Translator.
Import Py Builtins Cookie.

Section Translator.
Context {interp : Interpreter} {utils : Utils} {dates : Dates}.

(** [to_domain]: the record that [get_cookie] builds from a wire map. *)
Definition to_domain (m : wire_map) : result CookieInformation :=
  CookieInformation__init__ m.

(** [to_wire]: the wire map that [add_cookie] builds when it is given the
    fields of a record ([add_cookie] has no [httpOnly] argument). *)
Definition to_wire (c : CookieInformation) : result wire_map :=
  new_cookie (name c) (value c) (path c) (domain c) (secure c) (expiry c).

Definition round_trip (m : wire_map) : result wire_map :=
  let+ c := to_domain m in to_wire c.

End Translator.
End Translator.

(** ** Concrete collaborators

    Instances of the interfaces above, on which the statements below are
    evaluated. *)

Module Models.
Import Py Builtins Library Cookie.

#[global] Instance datetime_eq_dec : EqDecision datetime.
Proof. solve_decision. Defined.
#[global] Instance pyval_eq_dec : EqDecision pyval.
Proof. solve_decision. Defined.

Definition upper_char (c : ascii) : ascii :=
  let n := nat_of_ascii c in
  if ((97 <=? n) && (n <=? 122))%nat then ascii_of_nat (n - 32) else c.

Definition upper (s : string) : string :=
  string_of_list_ascii (map upper_char (list_ascii_of_string s)).

(** Modelled from the spec: [SeleniumLibrary.utils.is_truthy] is not among
    the sources.  Section 6: "empty string, "false", "no", "none"
    (case-insensitive) are false; every other non-empty string is true;
    native boolean/numeric-zero semantics otherwise". *)
Definition is_truthy_spec (item : pyval) : bool :=
  match item with
  | PStr s => negb (bool_decide (upper s ∈ ["FALSE"; "NO"; ""; "NONE"]))
  | _ => truth item
  end.

(** Modelled from the spec: [SeleniumLibrary.utils.is_noney] is not among
    the sources.  Section 4.6 has [to_wire] omit "any field the caller left
    unset" and tells "unset" from "set to empty/false": a value is unset
    when it is [None]. *)
Definition is_noney_spec (item : pyval) : bool :=
  match item with
  | PNone => true
  | _ => false
  end.

Definition utils_spec : Utils :=
  {| is_truthy := is_truthy_spec; is_noney := is_noney_spec |}.

(** An interpreter to evaluate on.  Of the strings that are not plain it
    reads the long ones only, and it takes no timestamp outside of 1970 to
    2038.  The statements are evaluated on plain strings and on timestamps
    in that range, where every interpreter does the same. *)
Definition plain_interpreter : Interpreter :=
  {| int_of_text :=
       fun s => if forallb is_plain_char (list_ascii_of_string s)
                then int_of_literal s else None;
     fromtimestamp_beyond :=
       fun _ => Raise (mk_exn OverflowError
                         "timestamp out of range for platform time_t") |}.

(** The date libraries in a time zone [tz] seconds east of UTC. *)
Definition dates_at {interp : Interpreter} (tz : Z) : Dates :=
  {| convert_date := DateTime.convert_date tz;
     fromtimestamp := DateTime.fromtimestamp tz |}.

(** A browser that only keeps a cookie jar, the cookie added last first. *)
Definition jar := list wire_map.

Definition named (n : pyval) (c : wire_map) : bool :=
  bool_decide (c !! "name" = Some n).

Definition jar_driver : WebDriver jar :=
  {| wd_get_cookies := fun b => (Ok b, b);
     wd_get_cookie := fun n b => (Ok (find (named n) b), b);
     wd_add_cookie := fun c b => (Ok tt, c :: b);
     wd_delete_cookie :=
       fun n b => (Ok tt, filter (fun c => named n c = false) b);
     wd_delete_all_cookies := fun _ => (Ok tt, []) |}.

(** The cookie keywords behind [DynamicCore.run_keyword], by method name,
    returning [None] where the keyword returns no string. *)
Definition cookie_keywords (name : string) (args : list pyval)
    : M (SeleniumLibrary jar) pyval :=
  let arg i := default PNone (args !! i) in
  if String.eqb name "get_cookies" then
    let* s := get_cookies (driver := jar_driver) in ret (PStr s)
  else if String.eqb name "get_cookie" then
    get_cookie (dates := dates_at (interp := plain_interpreter) 0)
      (driver := jar_driver) (arg 0%nat) ;;
    ret PNone
  else if String.eqb name "add_cookie" then
    add_cookie (interp := plain_interpreter) (utils := utils_spec)
      (dates := dates_at (interp := plain_interpreter) 0)
      (driver := jar_driver) (arg 0%nat) (arg 1%nat) (arg 2%nat) (arg 3%nat)
      (arg 4%nat) (arg 5%nat) ;;
    ret PNone
  else if String.eqb name "delete_all_cookies" then
    delete_all_cookies (driver := jar_driver) ;; ret PNone
  else raise (mk_exn RuntimeError ("No keyword with name '" +:+ name +:+ "'")).

(** A host whose [BuiltIn().run_keyword] finds no keyword at all. *)
Definition bare_host : Host jar :=
  {| DynamicCore_run_keyword := fun name args _ => cookie_keywords name args;
     BuiltIn_run_keyword :=
       fun kw => raise (mk_exn ExecutionFailed
                          ("No keyword with name '" +:+ str kw +:+ "' found.")) |}.

(** A host whose run-on-failure keyword is interrupted from the keyboard. *)
Definition interrupted_host : Host jar :=
  {| DynamicCore_run_keyword := fun name args _ => cookie_keywords name args;
     BuiltIn_run_keyword :=
       fun _ => raise (mk_exn KeyboardInterrupt "") |}.

(** *** Libraries and cookies to evaluate on *)

(** A fresh library: the default run-on-failure keyword, no browser. *)
Definition fresh : SeleniumLibrary jar :=
  mkSeleniumLibrary (PStr "Capture Page Screenshot") false None [].

(** A library whose run-on-failure keyword is its own [get_cookies]. *)
Definition hooked : SeleniumLibrary jar :=
  mkSeleniumLibrary (PStr "get_cookies") false None [].

(** A library whose browser holds the given cookies. *)
Definition library_on (cookies : jar) : SeleniumLibrary jar :=
  mkSeleniumLibrary (PStr "Capture Page Screenshot") false (Some cookies) [].

Definition cookie_a : wire_map :=
  <["value" := PStr "1"]> (<["name" := PStr "a"]> ∅).
Definition cookie_b : wire_map :=
  <["path" := PStr "/"]> (<["value" := PStr "2"]> (<["name" := PStr "b"]> ∅)).

Definition cookie_foo : wire_map :=
  <["value" := PStr "bar"]> (<["name" := PStr "foo"]> ∅).

Definition cookie_secure : wire_map :=
  <["secure" := PBool true]> (<["path" := PStr "/"]> cookie_foo).

(** The cookie of the keyword documentation, its expiry an epoch. *)
Definition cookie_epoch : wire_map := <["expiry" := PInt 1822137695]> cookie_foo.

(** The cookie [CookieInformation] gets wrong: its expiry is the epoch
    itself. *)
Definition cookie_epoch_zero : wire_map := <["expiry" := PInt 0]> cookie_foo.

(** A cookie as newer browsers return it, with a key that
    [CookieInformation] does not know, and a cookie without a name. *)
Definition cookie_samesite : wire_map := <["sameSite" := PStr "Lax"]> cookie_foo.
Definition cookie_nameless : wire_map := <["value" := PStr "x"]> ∅.

(** A library with the run-on-failure keyword switched off. *)
Definition silent : SeleniumLibrary jar :=
  mkSeleniumLibrary PNone false None [].

(** The expiry date of the keyword documentation and its reading as a
    local time. *)
Definition expiry_2027 : string := "2027-09-28 16:21:35".
Definition local_2027 : datetime := mk_datetime 2027 9 28 16 21 35 0.

End Models.

(** * Properties *)

(** ** The failure hook *)

Module FailureHook.
Import Py Builtins Library Models.

Ltac run_monad :=
  unfold run_on_failure, try_finally, try_except, bind, modify, gets, ret,
    raise, lift, logger_warn in *; simpl in *.

Section FailureHook.
Context {Browser : Type} {host : Host Browser}.

Local Abbreviation Self := (SeleniumLibrary Browser).

Lemma failure_occurred_guarded (self : Self) :
  _running_on_failure_keyword self = true →
  failure_occurred self = (Ok tt, self).
Proof. intros Hrun. unfold failure_occurred. now rewrite Hrun. Qed.

Lemma failure_occurred_disabled (self : Self) :
  truth (run_on_failure_keyword self) = false →
  failure_occurred self = (Ok tt, self).
Proof.
  intros Hkw. unfold failure_occurred. rewrite Hkw.
  now rewrite orb_true_r.
Qed.

Lemma failure_occurred_hook_passes (self s : Self) (v : pyval) :
  _running_on_failure_keyword self = false →
  truth (run_on_failure_keyword self) = true →
  BuiltIn_run_keyword (run_on_failure_keyword self) (set_running true self)
    = (Ok v, s) →
  failure_occurred self = (Ok tt, set_running false s).
Proof.
  intros Hrun Hkw Hhook. unfold failure_occurred. rewrite Hrun, Hkw.
  run_monad. now rewrite Hhook.
Qed.

Lemma failure_occurred_hook_fails (self s : Self) (err : exn) :
  _running_on_failure_keyword self = false →
  truth (run_on_failure_keyword self) = true →
  BuiltIn_run_keyword (run_on_failure_keyword self) (set_running true self)
    = (Raise err, s) →
  is_Exception err = true →
  failure_occurred self
  = (Ok tt,
     mkSeleniumLibrary (run_on_failure_keyword s) false (_browsers_current s)
       (warnings s ++ [could_not_be_run (run_on_failure_keyword s) err])).
Proof.
  intros Hrun Hkw Hhook Hexc. unfold failure_occurred. rewrite Hrun, Hkw.
  run_monad. rewrite Hhook, Hexc. reflexivity.
Qed.

Lemma failure_occurred_hook_escapes (self s : Self) (err : exn) :
  _running_on_failure_keyword self = false →
  truth (run_on_failure_keyword self) = true →
  BuiltIn_run_keyword (run_on_failure_keyword self) (set_running true self)
    = (Raise err, s) →
  is_Exception err = false →
  failure_occurred self = (Raise err, set_running false s).
Proof.
  intros Hrun Hkw Hhook Hexc. unfold failure_occurred. rewrite Hrun, Hkw.
  run_monad. rewrite Hhook, Hexc. reflexivity.
Qed.

(** Whatever the keyword does, a call that starts with the guard down ends
    with the guard down. *)
Lemma failure_occurred_lowers_guard (self : Self) :
  _running_on_failure_keyword self = false →
  _running_on_failure_keyword (failure_occurred self).2 = false.
Proof.
  intros Hrun.
  destruct (truth (run_on_failure_keyword self)) eqn:Hkw.
  - destruct (BuiltIn_run_keyword (run_on_failure_keyword self)
                (set_running true self)) as [[v | err] s] eqn:Hhook.
    + now rewrite (failure_occurred_hook_passes _ _ _ Hrun Hkw Hhook).
    + destruct (is_Exception err) eqn:Hexc.
      * now rewrite (failure_occurred_hook_fails _ _ _ Hrun Hkw Hhook Hexc).
      * now rewrite (failure_occurred_hook_escapes _ _ _ Hrun Hkw Hhook Hexc).
  - now rewrite (failure_occurred_disabled _ Hkw).
Qed.

(** Unless the keyword raises past [except Exception], [failure_occurred]
    returns normally. *)
Lemma failure_occurred_returns (self : Self) :
  (∀ err s,
     BuiltIn_run_keyword (run_on_failure_keyword self) (set_running true self)
       = (Raise err, s) → is_Exception err = true) →
  ∃ self', failure_occurred self = (Ok tt, self').
Proof.
  intros Hraises.
  destruct (_running_on_failure_keyword self) eqn:Hrun.
  { eexists. now apply failure_occurred_guarded. }
  destruct (truth (run_on_failure_keyword self)) eqn:Hkw.
  2: { eexists. now apply failure_occurred_disabled. }
  destruct (BuiltIn_run_keyword (run_on_failure_keyword self)
              (set_running true self)) as [[v | err] s] eqn:Hhook.
  - eexists. eapply failure_occurred_hook_passes; eauto.
  - eexists. eapply failure_occurred_hook_fails; eauto.
Qed.

(** C1, amended.  When a keyword fails with an [Exception] [e], and the
    run-on-failure keyword raises nothing but [Exception]s, [run_keyword]
    calls [failure_occurred] once, on the state the keyword left, and then
    raises [e] itself.  An [Exception] that the run-on-failure keyword
    raises does not come out of [failure_occurred]: it is logged as a
    warning, and [e] is still what [run_keyword] raises.  (What is no
    [Exception], a keyboard interrupt or a system exit, passes both
    [except Exception] clauses.) *)
Theorem run_keyword_failure_dispatches_once
    (name : string) (args : list pyval) (kwargs : list (string * pyval))
    (self self1 : Self) (e : exn) :
  DynamicCore_run_keyword name args kwargs self = (Raise e, self1) →
  is_Exception e = true →
  (∀ err s,
     BuiltIn_run_keyword (run_on_failure_keyword self1)
       (set_running true self1) = (Raise err, s) →
     is_Exception err = true) →
  ∃ self2,
    failure_occurred self1 = (Ok tt, self2)
    ∧ run_keyword name args kwargs self = (Raise e, self2)
    ∧ ∀ err s,
        _running_on_failure_keyword self1 = false →
        truth (run_on_failure_keyword self1) = true →
        BuiltIn_run_keyword (run_on_failure_keyword self1)
          (set_running true self1) = (Raise err, s) →
        warnings self2
        = warnings s ++ [could_not_be_run (run_on_failure_keyword s) err].
Proof.
  intros Hfail He Hhook.
  destruct (failure_occurred_returns self1 Hhook) as [self2 Hdisp].
  exists self2. split; [exact Hdisp | split].
  - unfold run_keyword, try_except. rewrite Hfail, He.
    unfold bind. rewrite Hdisp. reflexivity.
  - intros err s Hrun Hkw Hraise.
    rewrite (failure_occurred_hook_fails _ _ _ Hrun Hkw Hraise
               (Hhook _ _ Hraise)) in Hdisp.
    inversion Hdisp; subst. reflexivity.
Qed.

(** A call that does not return early runs the keyword once, with the guard
    up, and then only finishes: the guard goes down and a caught exception
    is logged. *)
Lemma run_on_failure_runs_keyword_once (self : Self) :
  run_on_failure self
  = match BuiltIn_run_keyword (run_on_failure_keyword self)
            (set_running true self) with
    | (Ok _, s) => (Ok tt, set_running false s)
    | (Raise err, s) =>
        if is_Exception err
        then (Ok tt,
              mkSeleniumLibrary (run_on_failure_keyword s) false
                (_browsers_current s)
                (warnings s ++ [could_not_be_run (run_on_failure_keyword s) err]))
        else (Raise err, set_running false s)
    end.
Proof.
  run_monad.
  destruct (BuiltIn_run_keyword _ _) as [[v | err] s]; [reflexivity |].
  destruct (is_Exception err); reflexivity.
Qed.

Lemma failure_occurred_unguarded (self : Self) :
  _running_on_failure_keyword self = false →
  truth (run_on_failure_keyword self) = true →
  failure_occurred self = run_on_failure self.
Proof. intros Hrun Hkw. unfold failure_occurred. now rewrite Hrun, Hkw. Qed.

(** While the guard is up, a failing keyword goes through [run_keyword]
    as if there were no hook. *)
Lemma run_keyword_guarded
    (name : string) (args : list pyval) (kwargs : list (string * pyval))
    (self : Self) :
  (_running_on_failure_keyword
     (DynamicCore_run_keyword name args kwargs self).2 = true) →
  run_keyword name args kwargs self
  = DynamicCore_run_keyword name args kwargs self.
Proof.
  intros Hkeeps. unfold run_keyword, try_except.
  destruct (DynamicCore_run_keyword name args kwargs self) as [[v | e] s];
    [reflexivity |].
  destruct (is_Exception e); [| reflexivity].
  unfold bind, raise. now rewrite (failure_occurred_guarded s Hkeeps).
Qed.

(** C8, amended.  A call of [failure_occurred] that starts with the guard
    down ends with the guard down, whether the keyword ran and returned, ran
    and raised, or was not run because none is registered; with a keyword
    registered, the next call runs it again.  (A call that starts with the
    guard up, inside the keyword's own run, leaves the guard up.) *)
Theorem failure_occurred_resets_guard (self : Self) :
  _running_on_failure_keyword self = false →
  _running_on_failure_keyword (failure_occurred self).2 = false
  ∧ (truth (run_on_failure_keyword (failure_occurred self).2) = true →
     failure_occurred (failure_occurred self).2
     = run_on_failure (failure_occurred self).2).
Proof.
  intros Hrun.
  pose proof (failure_occurred_lowers_guard self Hrun) as Hdown.
  split; [exact Hdown |].
  intros Hkw. now apply failure_occurred_unguarded.
Qed.

End FailureHook.

(** C6.  The guard against re-entrancy.  Take a run-on-failure keyword that
    is a keyword of the library, so that the host runs it through
    [run_keyword], and keyword bodies that leave the guard alone.  Then a
    call of [failure_occurred] while the guard is up changes nothing and
    runs nothing; a keyword that fails while the guard is up has its
    exception passed on without a second run; and a failure at the top
    executes the body of the run-on-failure keyword exactly once, the
    host's [BuiltIn().run_keyword] of the inner level never being called. *)
Theorem nested_failure_does_not_rerun_hook
    {Browser : Type} (host : Host Browser) (self : SeleniumLibrary Browser) :
  _running_on_failure_keyword self = false →
  truth (run_on_failure_keyword self) = true →
  (∀ name args kwargs s,
     _running_on_failure_keyword s = true →
     _running_on_failure_keyword
       (DynamicCore_run_keyword name args kwargs s).2 = true) →
  (∀ s, _running_on_failure_keyword s = true →
        failure_occurred s = (Ok tt, s))
  ∧ (∀ name args kwargs s,
       _running_on_failure_keyword s = true →
       run_keyword name args kwargs s
       = DynamicCore_run_keyword name args kwargs s)
  ∧ failure_occurred (host := library_hook host) self
    = match DynamicCore_run_keyword (str (run_on_failure_keyword self)) [] []
              (set_running true self) with
      | (Ok _, s) => (Ok tt, set_running false s)
      | (Raise err, s) =>
          if is_Exception err
          then (Ok tt,
                mkSeleniumLibrary (run_on_failure_keyword s) false
                  (_browsers_current s)
                  (warnings s
                   ++ [could_not_be_run (run_on_failure_keyword s) err]))
          else (Raise err, set_running false s)
      end.
Proof.
  intros Hrun Hkw Hkeeps. split; [| split].
  - intros s Hs. now apply failure_occurred_guarded.
  - intros name args kwargs s Hs. apply run_keyword_guarded.
    now apply Hkeeps.
  - rewrite (failure_occurred_unguarded (host := library_hook host) self Hrun Hkw).
    rewrite (run_on_failure_runs_keyword_once (host := library_hook host)).
    cbn [BuiltIn_run_keyword library_hook].
    rewrite run_keyword_guarded; [reflexivity |].
    now apply Hkeeps.
Qed.


(** *** The cookie keywords leave the guard alone *)

Section KeepsGuard.
Import Cookie.
Context {interp : Interpreter} {utils : Utils} {dates : Dates}
  {Browser : Type} {driver : WebDriver Browser}.

Lemma keeps_guard_ret {A} (a : A) :
  keeps_guard (Browser := Browser) (ret a).
Proof. intros s. reflexivity. Qed.

Lemma keeps_guard_raise {A} (e : exn) :
  keeps_guard (Browser := Browser) (raise (A := A) e).
Proof. intros s. reflexivity. Qed.

Lemma keeps_guard_lift {A} (r : result A) :
  keeps_guard (Browser := Browser) (lift r).
Proof. intros s. reflexivity. Qed.

Lemma keeps_guard_bind {A B} (m : M (SeleniumLibrary Browser) A)
    (f : A → M (SeleniumLibrary Browser) B) :
  keeps_guard m → (∀ a, keeps_guard (f a)) → keeps_guard (bind m f).
Proof.
  intros Hm Hf s. unfold bind. specialize (Hm s).
  destruct (m s) as [[a | e] s']; simpl in *; [| exact Hm].
  now rewrite Hf.
Qed.

Lemma keeps_guard_on_browser {A} (method : M Browser A) :
  keeps_guard (on_browser method).
Proof.
  intros s. unfold on_browser, browser, bind.
  destruct (_browsers_current s); [| reflexivity].
  now destruct (method b).
Qed.

Create HintDb guard.
#[local] Hint Resolve keeps_guard_ret keeps_guard_raise keeps_guard_lift
  keeps_guard_on_browser : guard.

Lemma keeps_guard_get_cookies : keeps_guard get_cookies.
Proof.
  unfold get_cookies.
  apply keeps_guard_bind; [auto with guard | intros cookies].
  apply keeps_guard_bind; [auto with guard | intros pairs].
  auto with guard.
Qed.

Lemma keeps_guard_get_cookie (name : pyval) : keeps_guard (get_cookie name).
Proof.
  unfold get_cookie. apply keeps_guard_bind; [auto with guard |].
  intros [c |]; [| auto with guard].
  case_bool_decide; auto with guard.
Qed.

Lemma keeps_guard_add_cookie (name value path domain secure expiry : pyval) :
  keeps_guard (add_cookie name value path domain secure expiry).
Proof.
  unfold add_cookie.
  apply keeps_guard_bind; [auto with guard | intros c].
  auto with guard.
Qed.

Lemma keeps_guard_delete_all_cookies : keeps_guard delete_all_cookies.
Proof. apply keeps_guard_on_browser. Qed.

End KeepsGuard.

Lemma keeps_guard_cookie_keywords (name : string) (args : list pyval) :
  keeps_guard (cookie_keywords name args).
Proof.
  unfold cookie_keywords.
  repeat (case String.eqb;
          [ apply keeps_guard_bind;
            [ first [ apply keeps_guard_get_cookies
                    | apply keeps_guard_get_cookie
                    | apply keeps_guard_add_cookie
                    | apply keeps_guard_delete_all_cookies ]
            | intros ?; apply keeps_guard_ret ]
          | ]).
  apply keeps_guard_raise.
Qed.

(** *** The statements on a library with no browser open *)

(** [get_cookies] fails, no browser being open; the host does not know the
    run-on-failure keyword, which is logged; the failure of [get_cookies]
    is what comes out. *)
Lemma run_keyword_failure_dispatches_once_witness :
  DynamicCore_run_keyword (Host := bare_host) "get_cookies" [] [] fresh
  = (Raise (mk_exn RuntimeError "No browser is open"), fresh)
  ∧ run_keyword (host := bare_host) "get_cookies" [] [] fresh
    = (Raise (mk_exn RuntimeError "No browser is open"),
       mkSeleniumLibrary (PStr "Capture Page Screenshot") false None
         ["Keyword 'Capture Page Screenshot' could not be run on failure: No keyword with name 'Capture Page Screenshot' found."]).
Proof.
  split; [reflexivity |].
  destruct (run_keyword_failure_dispatches_once (host := bare_host)
              "get_cookies" [] [] fresh fresh
              (mk_exn RuntimeError "No browser is open")
              eq_refl eq_refl) as (self2 & Hdisp & Hrun & _).
  - intros err s Hraise. inversion Hraise. reflexivity.
  - rewrite Hrun. vm_compute in Hdisp. inversion Hdisp. reflexivity.
Defined.

(** The run-on-failure keyword [get_cookies] fails in its turn: its body
    ran once, and its failure is logged once. *)
Lemma nested_failure_does_not_rerun_hook_witness :
  failure_occurred (host := library_hook bare_host) hooked
  = (Ok tt,
     mkSeleniumLibrary (PStr "get_cookies") false None
       ["Keyword 'get_cookies' could not be run on failure: No browser is open"]).
Proof.
  destruct (nested_failure_does_not_rerun_hook bare_host hooked
              eq_refl eq_refl) as (_ & _ & Htop).
  - intros name args kwargs s Hs.
    cbn [DynamicCore_run_keyword bare_host].
    now rewrite keeps_guard_cookie_keywords.
  - rewrite Htop. reflexivity.
Defined.

Lemma failure_occurred_resets_guard_witness :
  _running_on_failure_keyword fresh = false
  ∧ _running_on_failure_keyword
      (failure_occurred (host := bare_host) fresh).2 = false.
Proof.
  split; [reflexivity |].
  exact (proj1 (failure_occurred_resets_guard (host := bare_host)
                  fresh eq_refl)).
Defined.

(** C1, as stated, fails: [get_cookies] fails with [RuntimeError], no
    browser being open; the run-on-failure keyword is interrupted from the
    keyboard, which is no [Exception]; [run_keyword] raises the interrupt
    in place of the failure of [get_cookies], and nothing is logged. *)
Lemma hook_interrupt_replaces_failure :
  DynamicCore_run_keyword (Host := interrupted_host) "get_cookies" [] [] fresh
  = (Raise no_browser_is_open, fresh)
  ∧ run_keyword (host := interrupted_host) "get_cookies" [] [] fresh
    = (Raise (mk_exn KeyboardInterrupt ""), fresh)
  ∧ warnings fresh = [].
Proof. repeat split. Qed.

(** C8, as stated, fails: inside the run of the keyword the guard is up, and
    a call of [failure_occurred] made there completes with the guard still
    up. *)
Lemma guard_stays_up_after_nested_call :
  failure_occurred (host := bare_host) (set_running true fresh)
  = (Ok tt, set_running true fresh)
  ∧ _running_on_failure_keyword
      (failure_occurred (host := bare_host) (set_running true fresh)).2
    = true.
Proof. split; reflexivity. Qed.

End FailureHook.

(** ** The cookie keywords *)

Module CookieKeywords.
Import Py Builtins Library Cookie.

(** Lookups in a dictionary built by insertions under literal keys. *)
Ltac lookup_keys :=
  repeat first [ rewrite lookup_insert_eq
               | rewrite lookup_insert_ne by discriminate
               | rewrite lookup_delete_eq
               | rewrite lookup_delete_ne by discriminate
               | rewrite lookup_empty ];
  try reflexivity.

Section CookieKeywords.
Context {interp : Interpreter} {utils : Utils} {dates : Dates}
  {Browser : Type} {driver : WebDriver Browser}.

Local Abbreviation Self := (SeleniumLibrary Browser).

Lemma on_browser_open {A} (method : M Browser A) (self : Self) (br : Browser) :
  _browsers_current self = Some br →
  on_browser method self = ((method br).1, set_browser (method br).2 self).
Proof.
  intros Hopen. unfold on_browser, browser, bind. rewrite Hopen.
  now destruct (method br).
Qed.

(** *** [get_cookies] *)

Lemma get_cookies_pairs_appends cookies nvs (pairs : list pyval) :
  Forall2 carries cookies nvs →
  get_cookies_pairs cookies pairs
  = Ok (pairs ++ map (fun nv => PStr (pair_of nv)) nvs).
Proof.
  intros Hall. revert pairs.
  induction Hall as [| cookie nv cookies nvs [Hn Hv] _ IH]; intros pairs.
  - simpl. now rewrite app_nil_r.
  - simpl. unfold getitem. rewrite Hn, Hv. simpl.
    rewrite IH. now rewrite <- app_assoc.
Qed.

Lemma join_strings (sep : string) (items : list string) :
  join sep (map PStr items) = Ok (String.concat sep items).
Proof.
  induction items as [| s [| t items] IH]; [reflexivity | reflexivity |].
  change (join sep (map PStr (s :: t :: items)))
    with (let+ r := join sep (map PStr (t :: items)) in Ok (s +:+ sep +:+ r)).
  rewrite IH. reflexivity.
Qed.

(** C10.  [get_cookies] returns the cookies of the browser, in the
    browser's order, each as name, ["="] and value, joined by ["; "]; for a
    browser without cookies that is the empty string. *)
Theorem get_cookies_joins_pairs (self : Self) (br br' : Browser)
    (cookies : list wire_map) (nvs : list (string * string)) :
  _browsers_current self = Some br →
  wd_get_cookies br = (Ok cookies, br') →
  Forall2 carries cookies nvs →
  get_cookies self
  = (Ok (String.concat "; " (map pair_of nvs)), set_browser br' self)
  ∧ (cookies = [] → get_cookies self = (Ok "", set_browser br' self)).
Proof.
  intros Hopen Hget Hall.
  assert (get_cookies self
          = (Ok (String.concat "; " (map pair_of nvs)), set_browser br' self))
    as Hjoin.
  { unfold get_cookies, bind. rewrite (on_browser_open _ _ _ Hopen), Hget.
    simpl. unfold lift.
    rewrite (get_cookies_pairs_appends _ _ [] Hall). simpl.
    rewrite <- (map_map pair_of PStr), join_strings. reflexivity. }
  split; [exact Hjoin |].
  intros ->. rewrite Hjoin. inversion Hall. reflexivity.
Qed.

(** *** [get_cookie] *)

(** C7.  When the browser has no cookie of the name, [get_cookie] raises
    [CookieNotFound]. *)
Theorem get_cookie_not_found (name : pyval) (self : Self) (br br' : Browser) :
  _browsers_current self = Some br →
  wd_get_cookie name br = (Ok None, br') →
  get_cookie name self
  = (Raise (mk_exn CookieNotFound
              ("Cookie with name '" +:+ str name +:+ "' not found.")),
     set_browser br' self).
Proof.
  intros Hopen Hget. unfold get_cookie, bind.
  rewrite (on_browser_open _ _ _ Hopen), Hget. reflexivity.
Qed.

(** *** [add_cookie] *)

Lemma new_cookie_keys (name value path domain secure expiry : pyval)
    (m : wire_map) :
  new_cookie name value path domain secure expiry = Ok m →
  m !! "name" = Some name ∧ m !! "value" = Some value
  ∧ dom m ⊆ add_cookie_keys ∧ m !! "httpOnly" = None.
Proof.
  unfold new_cookie, add_cookie_keys. intros Hnew.
  destruct (is_noney path), (is_noney domain), (is_noney secure),
    (is_noney expiry); simpl in Hnew;
    try (destruct (_expiry expiry); simpl in Hnew; [| discriminate]);
    injection Hnew as <-;
    (split; [| split; [| split]];
     [ lookup_keys | lookup_keys
     | by apply (bool_decide_unpack _); vm_compute
     | lookup_keys ]).
Qed.

(** [new_cookie] raises through [_expiry] only. *)
Lemma new_cookie_returns (name value path domain secure expiry : pyval) :
  is_noney expiry = true ∨ (∃ e, _expiry expiry = Ok e) →
  ∃ m, new_cookie name value path domain secure expiry = Ok m.
Proof.
  unfold new_cookie. intros Hexp.
  destruct (is_noney expiry); simpl; [eauto |].
  destruct Hexp as [? | [e ->]]; [discriminate | simpl; eauto].
Qed.

Lemma new_cookie_raises (name value path domain secure expiry : pyval)
    (e : exn) :
  is_noney expiry = false →
  _expiry expiry = Raise e →
  new_cookie name value path domain secure expiry = Raise e.
Proof. intros Hgiven Hexp. unfold new_cookie. now rewrite Hgiven, Hexp. Qed.

Lemma new_cookie_stores (name value path domain secure expiry : pyval)
    (e : Z) :
  is_noney expiry = false →
  _expiry expiry = Ok e →
  ∃ m : wire_map,
    new_cookie name value path domain secure expiry = Ok m
    ∧ m !! "expiry" = Some (PInt e).
Proof.
  intros Hgiven Hexp. unfold new_cookie. rewrite Hgiven, Hexp. simpl.
  eexists. split; [reflexivity |]. apply lookup_insert_eq.
Qed.

(** C9.  Whenever the expiry is none-like or [_expiry] returns, [add_cookie]
    calls [add_cookie] of the browser, with a dictionary that has the
    [name] and the [value], has no key outside of name, value, path,
    domain, secure and expiry, and so has no [httpOnly].  The one other
    case is an expiry for which [_expiry] raises: then that error is raised,
    nothing is sent and nothing changes. *)
Theorem add_cookie_sends_known_keys
    (name value path domain secure expiry : pyval) (self : Self) :
  (is_noney expiry = true ∨ (∃ e, _expiry expiry = Ok e) →
   ∃ m : wire_map,
     new_cookie name value path domain secure expiry = Ok m
     ∧ add_cookie name value path domain secure expiry self
       = on_browser (wd_add_cookie m) self
     ∧ m !! "name" = Some name ∧ m !! "value" = Some value
     ∧ dom m ⊆ add_cookie_keys ∧ m !! "httpOnly" = None)
  ∧ (is_noney expiry = false →
     ∀ e, _expiry expiry = Raise e →
          add_cookie name value path domain secure expiry self
          = (Raise e, self)).
Proof.
  split.
  - intros Hexp.
    destruct (new_cookie_returns name value path domain secure expiry Hexp)
      as [m Hnew].
    exists m. split; [exact Hnew |]. split.
    + unfold add_cookie, bind, lift. now rewrite Hnew.
    + now apply new_cookie_keys in Hnew.
  - intros Hgiven e Hexp. unfold add_cookie, bind, lift.
    now rewrite (new_cookie_raises _ _ _ _ _ _ _ Hgiven Hexp).
Qed.

(** *** [CookieInformation] *)

(** The fields of the record, for a dictionary of known keys with a name
    and a value: all are copied, a missing one takes the default of its
    parameter, and [expiry] is converted when it is true. *)
Lemma CookieInformation_fields (cookie : wire_map) (n v : pyval) :
  dom cookie ⊆ parameters →
  cookie !! "name" = Some n →
  cookie !! "value" = Some v →
  CookieInformation__init__ cookie
  = let+ e := (let e := default PNone (cookie !! "expiry") in
               if truth e
               then let+ dt := fromtimestamp e in Ok (PDatetime dt)
               else Ok PNone) in
    Ok (mkCookieInformation n v
          (default PNone (cookie !! "path"))
          (default PNone (cookie !! "domain"))
          (default (PBool false) (cookie !! "secure"))
          (default (PBool false) (cookie !! "httpOnly")) e).
Proof.
  intros Hdom Hn Hv. unfold CookieInformation__init__.
  rewrite (bool_decide_eq_true_2 _ Hdom), Hn, Hv. reflexivity.
Qed.

(** C3, at the input where the code leaves the claim.  The wire map
    [cookie_epoch_zero] does not omit the expiry: it is [0], the epoch
    itself.  The record built from it has no expiry all the same, since
    [if expiry] takes [0] for a missing value. *)
Theorem epoch_zero_expiry_is_dropped :
  Models.cookie_epoch_zero !! "expiry" = Some (PInt 0)
  ∧ CookieInformation__init__ Models.cookie_epoch_zero
    = Ok (mkCookieInformation (PStr "foo") (PStr "bar") PNone PNone
            (PBool false) (PBool false) PNone).
Proof.
  split; [reflexivity |].
  rewrite (CookieInformation_fields _ (PStr "foo") (PStr "bar"));
    [reflexivity | | reflexivity | reflexivity].
  by apply (bool_decide_unpack _); vm_compute.
Qed.

(** *** [_expiry] *)

Lemma digit_is_no_space (c : ascii) : is_digit c = true → is_space c = false.
Proof.
  destruct c as [[] [] [] [] [] [] [] []]; vm_compute; congruence.
Qed.

Lemma lstrip_digits (cs : list ascii) :
  forallb is_digit cs = true → lstrip cs = cs.
Proof.
  destruct cs as [| c cs]; [reflexivity |]. simpl.
  intros [Hc _]%andb_true_iff. now rewrite (digit_is_no_space c Hc).
Qed.

Lemma strip_digits (cs : list ascii) :
  forallb is_digit cs = true → strip cs = cs.
Proof.
  intros Hall. unfold strip. rewrite (lstrip_digits cs Hall).
  rewrite lstrip_digits; [apply rev_involutive |].
  apply forallb_forall. intros c Hc%in_rev.
  now apply (proj1 (forallb_forall _ _) Hall).
Qed.

Lemma int_digits_of_digits (cs : list ascii) (acc : Z) (after_digit : bool) :
  forallb is_digit cs = true →
  cs ≠ [] ∨ after_digit = true →
  int_digits cs acc after_digit = Some (digits_value cs acc).
Proof.
  revert acc after_digit.
  induction cs as [| c cs IH]; intros acc after_digit Hall Hne; simpl.
  - destruct Hne as [Hne | ->]; [congruence | reflexivity].
  - simpl in Hall. apply andb_true_iff in Hall as [Hc Hall].
    rewrite Hc. apply IH; [exact Hall | now right].
Qed.

Lemma digit_is_plain (c : ascii) : is_digit c = true → is_plain_char c = true.
Proof.
  destruct c as [[] [] [] [] [] [] [] []]; vm_compute; congruence.
Qed.

(** [int] reads a numeric string of at most 640 digits as its decimal
    value, on every interpreter. *)
Lemma int_of_numeric (s : string) :
  is_numeric s = true →
  (String.length s <=? 640)%nat = true →
  int (PStr s) = Ok (decimal s).
Proof.
  unfold is_numeric, decimal, int, int_of_string.
  intros [Hne Hall]%andb_true_iff Hshort.
  assert (plain s = true) as ->.
  { unfold plain. rewrite Hshort. simpl.
    apply forallb_forall. intros c Hc.
    apply digit_is_plain. now apply (proj1 (forallb_forall _ _) Hall). }
  unfold int_of_literal. rewrite (strip_digits _ Hall).
  destruct s as [| c s]; [discriminate |]. simpl in Hall |- *.
  apply andb_true_iff in Hall as [Hc Hall].
  assert (int_digits (c :: list_ascii_of_string s) 0 false
          = Some (digits_value (c :: list_ascii_of_string s) 0)) as Hdigits.
  { apply int_digits_of_digits; [simpl; now rewrite Hc | now left]. }
  simpl in Hdigits. rewrite Hc in Hdigits.
  destruct c as [[] [] [] [] [] [] [] []]; try discriminate Hc;
    cbv match; now rewrite Hc, Hdigits.
Qed.

(** C4.  For an expiry that is given, [add_cookie] stores [int(expiry)]
    whenever [int] returns; when [int] raises [ValueError] and
    [convert_date] returns an epoch, it stores the integer part of that
    epoch; and every expiry it stores is stored in one of these two ways,
    the date only after [int] has failed.  A string of decimal digits, up
    to the 640 that every interpreter reads, is stored as its decimal
    value, whatever the date library would make of it. *)
Theorem expiry_is_epoch_before_date
    (name value path domain secure expiry : pyval) :
  is_noney expiry = false →
  (∀ k, int expiry = Ok k →
        ∃ m : wire_map,
          new_cookie name value path domain secure expiry = Ok m
          ∧ m !! "expiry" = Some (PInt k))
  ∧ (∀ e epoch,
       int expiry = Raise e →
       is_ValueError e = true →
       convert_date expiry = Ok epoch →
       ∃ m : wire_map,
         new_cookie name value path domain secure expiry = Ok m
         ∧ m !! "expiry" = Some (PInt (DateTime.int_of_float epoch)))
  ∧ (∀ m : wire_map,
       new_cookie name value path domain secure expiry = Ok m →
       ∃ n, m !! "expiry" = Some (PInt n)
            ∧ (int expiry = Ok n
               ∨ ∃ e epoch,
                   int expiry = Raise e ∧ is_ValueError e = true
                   ∧ convert_date expiry = Ok epoch
                   ∧ n = DateTime.int_of_float epoch))
  ∧ (∀ s, expiry = PStr s →
          is_numeric s = true →
          (String.length s <=? 640)%nat = true →
          ∃ m : wire_map,
            new_cookie name value path domain secure expiry = Ok m
            ∧ m !! "expiry" = Some (PInt (decimal s))).
Proof.
  intros Hgiven. repeat apply conj.
  - intros k Hk. apply new_cookie_stores; [exact Hgiven |].
    unfold _expiry. now rewrite Hk.
  - intros e epoch He Hvalue Hdate.
    apply new_cookie_stores; [exact Hgiven |].
    unfold _expiry. now rewrite He, Hvalue, Hdate.
  - intros m Hnew.
    destruct (_expiry expiry) as [n | e0] eqn:Hexp.
    2: { rewrite (new_cookie_raises _ _ _ _ _ _ _ Hgiven Hexp) in Hnew.
         discriminate. }
    destruct (new_cookie_stores name value path domain secure expiry n
                Hgiven Hexp) as (m' & Hm' & Hlook).
    exists n. split; [congruence |].
    unfold _expiry in Hexp.
    destruct (int expiry) as [k | e] eqn:Hint; [left; congruence | right].
    destruct (is_ValueError e) eqn:Hvalue; [| discriminate].
    destruct (convert_date expiry) as [epoch | e1] eqn:Hdate;
      [| discriminate].
    exists e, epoch. simpl in Hexp. repeat split; congruence.
  - intros s -> Hnum Hshort.
    apply new_cookie_stores; [exact Hgiven |].
    unfold _expiry. now rewrite (int_of_numeric s Hnum Hshort).
Qed.

End CookieKeywords.
End CookieKeywords.

(** ** The translation between wire maps and records *)

Module RoundTrip.
Import Py Builtins Library Cookie Translator CookieKeywords.

Lemma in_parameters (k : string) :
  k ∈ parameters ↔
  k = "name" ∨ k = "value" ∨ k = "path" ∨ k = "domain" ∨ k = "secure"
  ∨ k = "httpOnly" ∨ k = "expiry".
Proof.
  unfold parameters. rewrite !elem_of_union, !elem_of_singleton. tauto.
Qed.

Section RoundTrip.
Context {interp : Interpreter} {utils : Utils} {dates : Dates}.

(** The dictionary [to_wire] builds from the fields of a record without an
    expiry, key by key. *)
Lemma to_wire_lookup (n v p d : pyval) (b : bool) (k : string) :
  utils_on_booleans →
  ∃ m', new_cookie n v p d (PBool b) PNone = Ok m'
        ∧ m' !! k
          = if decide (k = "secure") then Some (PBool b)
            else if decide (k = "domain")
                 then (if is_noney d then None else Some d)
            else if decide (k = "path")
                 then (if is_noney p then None else Some p)
            else if decide (k = "value") then Some v
            else if decide (k = "name") then Some n
            else None.
Proof.
  intros [Hnone Hbool]. destruct (Hbool b) as [Hnb Htb].
  unfold new_cookie. rewrite Hnone, Hnb, Htb. simpl.
  eexists. split; [reflexivity |].
  destruct (is_noney p), (is_noney d); simpl;
    repeat (case_decide; [subst k; lookup_keys |]);
    rewrite ?lookup_insert_ne by congruence; apply lookup_empty.
Qed.

(** A record with an expiry does not go back: the expiry is a [datetime],
    for which [int] raises [TypeError], and [_expiry] handles [ValueError]
    only. *)
Lemma to_wire_raises_on_expiry (c : CookieInformation) (dt : datetime) :
  expiry c = PDatetime dt →
  is_noney (PDatetime dt) = false →
  ∃ e, to_wire c = Raise e ∧ exn_class e = TypeError.
Proof.
  intros Hexp Hgiven. unfold to_wire, new_cookie. rewrite Hexp, Hgiven.
  eexists. split; reflexivity.
Qed.

(** C2, amended.  Take a wire map with keys among the parameters of
    [CookieInformation], with a name and a value and without an expiry,
    where a path or a domain that is present is not none-like and a secure
    that is present is a boolean.  Then [to_wire] after [to_domain] gives the
    map back with its name, value, path, domain and secure; a path or a
    domain left out stays out; secure comes back as [False] when it was left
    out; [httpOnly] is not written.  So the map comes back as it was when it
    has a secure and no [httpOnly]. *)
Theorem round_trip_keeps_known_fields (m : wire_map) (n v : pyval) :
  utils_on_booleans →
  dom m ⊆ parameters →
  m !! "name" = Some n →
  m !! "value" = Some v →
  m !! "expiry" = None →
  (∀ p, m !! "path" = Some p → is_noney p = false) →
  (∀ d, m !! "domain" = Some d → is_noney d = false) →
  (∀ s, m !! "secure" = Some s → ∃ b, s = PBool b) →
  round_trip m
  = Ok (<["secure" := default (PBool false) (m !! "secure")]>
          (delete "httpOnly" m))
  ∧ (is_Some (m !! "secure") → m !! "httpOnly" = None → round_trip m = Ok m).
Proof.
  intros Hutils Hdom Hn Hv He Hp Hd Hs.
  assert (round_trip m
          = Ok (<["secure" := default (PBool false) (m !! "secure")]>
                  (delete "httpOnly" m))) as Hround.
  { unfold round_trip, to_domain, to_wire.
    rewrite (CookieInformation_fields m n v Hdom Hn Hv), He. simpl.
    assert (∃ b, default (PBool false) (m !! "secure") = PBool b) as [b Hb].
    { destruct (m !! "secure") as [s |] eqn:Hsec; simpl; [| eauto].
      destruct (Hs s eq_refl) as [b ->]. eauto. }
    rewrite Hb.
    assert (∀ k, ∃ m', new_cookie n v (default PNone (m !! "path"))
                         (default PNone (m !! "domain")) (PBool b) PNone
                       = Ok m'
                       ∧ m' !! k
                         = (<["secure" := PBool b]> (delete "httpOnly" m)) !! k)
      as Hkeys.
    { intros k.
      destruct (to_wire_lookup n v (default PNone (m !! "path"))
                  (default PNone (m !! "domain")) b k Hutils)
        as (m' & Hm' & Hk).
      exists m'. split; [exact Hm' |]. rewrite Hk. clear Hk Hm'.
      destruct Hutils as [Hnone _].
      repeat case_decide; subst; lookup_keys.
      - destruct (m !! "domain") as [d |] eqn:Hdm; simpl.
        + now rewrite (Hd d eq_refl).
        + now rewrite Hnone.
      - destruct (m !! "path") as [p |] eqn:Hpm; simpl.
        + now rewrite (Hp p eq_refl).
        + now rewrite Hnone.
      - now rewrite Hv.
      - now rewrite Hn.
      - rewrite lookup_insert_ne by congruence.
        destruct (decide (k = "httpOnly")) as [-> | Hh];
          [now rewrite lookup_delete_eq |].
        rewrite lookup_delete_ne by congruence.
        symmetry. apply not_elem_of_dom. intros Hin.
        pose proof (proj1 (in_parameters k) (Hdom k Hin)) as Hk.
        destruct Hk as [-> | [-> | [-> | [-> | [-> | [-> | ->]]]]]];
          try congruence.
        apply elem_of_dom in Hin as [e Hin]. congruence. }
    destruct (Hkeys "name") as (m' & Hm' & _). rewrite Hm'. f_equal.
    apply map_eq. intros k.
    destruct (Hkeys k) as (m'' & Hm'' & Hk). congruence. }
  split; [exact Hround |].
  intros [s Hsec] Hhttp. rewrite Hround, Hsec. simpl. f_equal.
  rewrite insert_id; [now apply delete_id |].
  now rewrite lookup_delete_ne by discriminate.
Qed.

End RoundTrip.
End RoundTrip.

(** ** A cookie with an expiry date, added and read back *)

Module Scenario.
Import Py Builtins Library Cookie Models CookieKeywords.

Lemma string_to_datetime_2027 :
  DateTime._string_to_datetime expiry_2027 = Ok local_2027.
Proof. vm_compute. reflexivity. Qed.

Lemma add_cookie_keys_are_parameters : add_cookie_keys ⊆ parameters.
Proof. by apply (bool_decide_unpack _); vm_compute. Qed.

Section Scenario.
Context {interp : Interpreter} {utils : Utils} {Browser : Type}
  {driver : WebDriver Browser}.
Variable tz : Z.

Local Abbreviation Self := (SeleniumLibrary Browser).
Local Abbreviation here := (dates_at tz).

(** The date is no integer literal, so it goes to [convert_date], which
    reads it as a local time. *)
Lemma _expiry_2027 :
  _expiry (dates := here) (PStr expiry_2027) = Ok (1822148495 - tz).
Proof.
  unfold _expiry.
  replace (int (PStr expiry_2027))
    with (Raise (A := Z)
            (mk_exn ValueError
               ("invalid literal for int() with base 10: '"
                +:+ expiry_2027 +:+ "'")))
    by (vm_compute; reflexivity).
  cbn [is_ValueError exn_class convert_date Models.dates_at].
  unfold DateTime.convert_date. rewrite string_to_datetime_2027.
  cbn [rbind]. unfold DateTime._mktime_with_millis, DateTime.mktime.
  cbn [year month day hour minute second microsecond local_2027].
  replace (DateTime._ymd2ord 2027 9 28) with 740252
    by (vm_compute; reflexivity).
  unfold DateTime.epoch_ordinal, DateTime.int_of_float. f_equal.
  rewrite Z.add_0_r. rewrite Z.quot_mul by lia. lia.
Qed.

(** [fromtimestamp] takes the epoch back to the same local time. *)
Lemma fromtimestamp_2027 :
  -86400 < tz < 86400 →
  fromtimestamp (Dates := here) (PInt (1822148495 - tz)) = Ok local_2027.
Proof.
  intros Htz. cbn [fromtimestamp Models.dates_at].
  unfold DateTime.fromtimestamp.
  replace (Z.leb 0 (1822148495 - tz) && Z.ltb (1822148495 - tz) 2147483648)
    with true
    by (symmetry; apply andb_true_iff; split;
        [apply Z.leb_le | apply Z.ltb_lt]; lia).
  f_equal. unfold DateTime.localtime.
  replace (1822148495 - tz + tz) with 1822148495 by lia.
  vm_compute. reflexivity.
Qed.

Lemma new_cookie_with_expiry {dates : Dates}
    (name value path domain secure expiry : pyval) (e : Z) :
  is_noney expiry = false →
  _expiry expiry = Ok e →
  ∃ m : wire_map,
    new_cookie name value path domain secure expiry = Ok m
    ∧ m !! "expiry" = Some (PInt e).
Proof.
  intros Hgiven Hexp. unfold new_cookie. rewrite Hgiven, Hexp. simpl.
  eexists. split; [reflexivity |]. apply lookup_insert_eq.
Qed.

(** C5.  [add_cookie] with the expiry ["2027-09-28 16:21:35"] succeeds, and
    when the browser gives back the dictionary it was given, [get_cookie]
    returns a record whose expiry is a [datetime] of the year 2027. *)
Theorem expiry_year_2027_comes_back
    (name value path domain secure : pyval) (self : Self) (br : Browser) :
  -86400 < tz < 86400 →
  is_noney (PStr expiry_2027) = false →
  _browsers_current self = Some br →
  (∀ (m : wire_map) b,
     m !! "name" = Some name →
     ∃ b1 b2, wd_add_cookie m b = (Ok tt, b1)
              ∧ wd_get_cookie name b1 = (Ok (Some m), b2)) →
  ∃ self1 self2 cookie dt,
    add_cookie (dates := here) name value path domain secure
      (PStr expiry_2027) self = (Ok tt, self1)
    ∧ get_cookie (dates := here) name self1 = (Ok cookie, self2)
    ∧ expiry cookie = PDatetime dt
    ∧ year dt = 2027.
Proof.
  intros Htz Hgiven Hopen Hecho.
  destruct (new_cookie_with_expiry (dates := here) name value path domain
              secure (PStr expiry_2027) _ Hgiven _expiry_2027)
    as (m & Hnew & Hexp).
  destruct (new_cookie_keys _ _ _ _ _ _ _ Hnew) as (Hn & Hv & Hdom & _).
  destruct (Hecho m br Hn) as (b1 & b2 & Hadd & Hget).
  exists (set_browser b1 self), (set_browser b2 (set_browser b1 self)).
  exists (mkCookieInformation name value
            (default PNone (m !! "path")) (default PNone (m !! "domain"))
            (default (PBool false) (m !! "secure"))
            (default (PBool false) (m !! "httpOnly")) (PDatetime local_2027)).
  exists local_2027. split; [| split; [| split; reflexivity]].
  - unfold add_cookie, bind, lift. rewrite Hnew.
    rewrite (on_browser_open _ _ _ Hopen), Hadd. reflexivity.
  - unfold get_cookie, bind.
    rewrite (on_browser_open _ (set_browser b1 self) b1 eq_refl), Hget.
    cbn [fst snd].
    rewrite bool_decide_eq_false_2.
    2: { intros ->. rewrite lookup_empty in Hn. discriminate. }
    unfold lift. f_equal.
    rewrite (CookieInformation_fields m name value);
      [| etrans; [exact Hdom | exact add_cookie_keys_are_parameters]
       | exact Hn | exact Hv].
    rewrite Hexp. cbn [default from_option id truth].
    replace (Z.eqb (1822148495 - tz) 0) with false
      by (symmetry; apply Z.eqb_neq; lia).
    cbn [negb]. rewrite (fromtimestamp_2027 Htz). reflexivity.
Qed.

End Scenario.
End Scenario.

(** ** The statements on a browser that keeps a cookie jar *)

Module OnJar.
Import Py Builtins Library Cookie Translator Models CookieKeywords.

#[local] Existing Instance plain_interpreter.

Lemma get_cookies_joins_pairs_witness :
  get_cookies (driver := jar_driver) (library_on [cookie_a; cookie_b])
  = (Ok "a=1; b=2", library_on [cookie_a; cookie_b]).
Proof.
  destruct (get_cookies_joins_pairs (driver := jar_driver)
              (library_on [cookie_a; cookie_b]) [cookie_a; cookie_b]
              [cookie_a; cookie_b] [cookie_a; cookie_b]
              [("a", "1"); ("b", "2")] eq_refl eq_refl) as [Hjoin _].
  - repeat constructor.
  - rewrite Hjoin. reflexivity.
Defined.

Lemma get_cookie_not_found_witness :
  get_cookie (dates := dates_at 0) (driver := jar_driver) (PStr "foo")
    (library_on [cookie_a])
  = (Raise (mk_exn CookieNotFound "Cookie with name 'foo' not found."),
     library_on [cookie_a]).
Proof.
  exact (get_cookie_not_found (dates := dates_at 0) (driver := jar_driver)
           (PStr "foo") (library_on [cookie_a]) [cookie_a] [cookie_a]
           eq_refl eq_refl).
Defined.

Lemma expiry_is_epoch_before_date_witness :
  (∃ m : wire_map,
     new_cookie (utils := utils_spec) (dates := dates_at 10800)
       (PStr "foo") (PStr "bar") PNone PNone PNone (PStr expiry_2027) = Ok m
     ∧ m !! "expiry" = Some (PInt 1822137695))
  ∧ (∃ m : wire_map,
       new_cookie (utils := utils_spec) (dates := dates_at 10800)
         (PStr "foo") (PStr "bar") PNone PNone PNone (PStr "1822137695")
       = Ok m
       ∧ m !! "expiry" = Some (PInt 1822137695)).
Proof.
  split.
  - exact (proj1 (proj2 (expiry_is_epoch_before_date (utils := utils_spec)
                           (dates := dates_at 10800)
                           (PStr "foo") (PStr "bar") PNone PNone PNone
                           (PStr expiry_2027) eq_refl))
             _ 1822137695000000 eq_refl eq_refl eq_refl).
  - exact (proj2 (proj2 (proj2 (expiry_is_epoch_before_date
                                  (utils := utils_spec)
                                  (dates := dates_at 10800)
                                  (PStr "foo") (PStr "bar") PNone PNone PNone
                                  (PStr "1822137695") eq_refl)))
             "1822137695" eq_refl eq_refl eq_refl).
Defined.

(** [add_cookie] on an empty jar: the dictionary is in the jar. *)
Lemma add_cookie_sends_known_keys_witness :
  add_cookie (utils := utils_spec) (dates := dates_at 0)
    (driver := jar_driver) (PStr "foo") (PStr "bar") (PStr "/") PNone
    (PStr "yes") PNone (library_on [])
  = (Ok tt, library_on [cookie_secure]).
Proof.
  destruct (proj1 (add_cookie_sends_known_keys (utils := utils_spec)
                     (dates := dates_at 0) (driver := jar_driver)
                     (PStr "foo") (PStr "bar") (PStr "/") PNone (PStr "yes")
                     PNone (library_on []))
              (or_introl eq_refl)) as (m & Hnew & Hsend & _).
  rewrite Hsend.
  assert (Ok m = Ok cookie_secure) as Hm by (rewrite <- Hnew; reflexivity).
  injection Hm as ->. reflexivity.
Defined.

(** The two examples of the docstring of [add_cookie], the date
    [2027-09-28 16:21:35] and the epoch [1822137695], are stored as the
    same value three hours east of UTC. *)
Example docstring_examples_agree :
  _expiry (dates := dates_at 10800) (PStr expiry_2027) = Ok 1822137695
  ∧ _expiry (dates := dates_at 10800) (PStr "1822137695") = Ok 1822137695.
Proof. split; vm_compute; reflexivity. Qed.

(** The calendar on a leap day, there and back. *)
Example leap_day :
  fromtimestamp (Dates := dates_at 0) (PInt 1709251199)
  = Ok (mk_datetime 2024 2 29 23 59 59 0)
  ∧ convert_date (Dates := dates_at 0) (PStr "2024-02-29 23:59:59")
    = Ok 1709251199000000.
Proof. split; vm_compute; reflexivity. Qed.

(** The calendar has a date for the epoch. *)
Lemma fromtimestamp_epoch_zero :
  fromtimestamp (Dates := dates_at 0) (PInt 0)
  = Ok (mk_datetime 1970 1 1 0 0 0 0).
Proof. reflexivity. Qed.

(** *** The round trip *)

Lemma utils_spec_on_booleans :
  utils_on_booleans (utils := utils_spec).
Proof. split; [reflexivity |]. intros []; split; reflexivity. Qed.

(** C2, as stated, fails: a map with a name and a value only comes back
    with [secure] set to [False]. *)
Lemma round_trip_adds_secure :
  round_trip (utils := utils_spec) (dates := dates_at 0) cookie_foo
  = Ok (<["secure" := PBool false]> cookie_foo)
  ∧ round_trip (utils := utils_spec) (dates := dates_at 0) cookie_foo
    ≠ Ok cookie_foo.
Proof.
  assert (round_trip (utils := utils_spec) (dates := dates_at 0) cookie_foo
          = Ok (<["secure" := PBool false]> cookie_foo)) as Hround
    by (vm_compute; reflexivity).
  split; [exact Hround |].
  rewrite Hround. intros Heq.
  assert ((<["secure" := PBool false]> cookie_foo : wire_map) !! "secure"
          = cookie_foo !! "secure") as Hsecure by congruence.
  vm_compute in Hsecure. discriminate.
Qed.

Lemma round_trip_keeps_known_fields_witness :
  round_trip (utils := utils_spec) (dates := dates_at 0) cookie_secure
  = Ok cookie_secure.
Proof.
  refine (proj2 (RoundTrip.round_trip_keeps_known_fields
                   (utils := utils_spec) (dates := dates_at 0)
                   cookie_secure (PStr "foo") (PStr "bar")
                   utils_spec_on_booleans _ eq_refl eq_refl eq_refl _ _ _)
            _ eq_refl).
  - by apply (bool_decide_unpack _); vm_compute.
  - intros p Hp. vm_compute in Hp. injection Hp as <-. reflexivity.
  - intros d Hd. vm_compute in Hd. discriminate.
  - intros s Hs. vm_compute in Hs. injection Hs as <-. now exists true.
  - now exists (PBool true).
Defined.

(** *** The scenario, in a time zone three hours east of UTC *)

Lemma jar_gives_back (name : pyval) (m : wire_map) (b : jar) :
  m !! "name" = Some name →
  ∃ b1 b2, wd_add_cookie (WebDriver := jar_driver) m b = (Ok tt, b1)
           ∧ wd_get_cookie (WebDriver := jar_driver) name b1
             = (Ok (Some m), b2).
Proof.
  intros Hname. exists (m :: b), (m :: b). split; [reflexivity |].
  cbn [wd_get_cookie jar_driver find]. unfold named.
  now rewrite (bool_decide_eq_true_2 _ Hname).
Qed.

Lemma expiry_year_2027_comes_back_witness :
  ∃ self1 self2 cookie dt,
    add_cookie (utils := utils_spec) (dates := dates_at 10800)
      (driver := jar_driver) (PStr "foo") (PStr "bar") PNone PNone PNone
      (PStr expiry_2027) (library_on []) = (Ok tt, self1)
    ∧ get_cookie (dates := dates_at 10800) (driver := jar_driver)
        (PStr "foo") self1 = (Ok cookie, self2)
    ∧ expiry cookie = PDatetime dt
    ∧ year dt = 2027.
Proof.
  apply (Scenario.expiry_year_2027_comes_back (utils := utils_spec)
           (driver := jar_driver) 10800 (PStr "foo") (PStr "bar")
           PNone PNone PNone (library_on []) []).
  - lia.
  - reflexivity.
  - reflexivity.
  - intros m b. apply jar_gives_back.
Defined.

End OnJar.

(** * Further properties of the cookie keywords *)

Module CookieMore.
Import Py Builtins Library Cookie CookieKeywords.

Section CookieMore.
Context {interp : Interpreter} {utils : Utils} {dates : Dates}
  {Browser : Type} {driver : WebDriver Browser}.

Local Abbreviation Self := (SeleniumLibrary Browser).

(** What a successful construction tells about the dictionary. *)
Lemma CookieInformation_inversion (c : wire_map) (r : CookieInformation) :
  CookieInformation__init__ c = Ok r →
  dom c ⊆ parameters
  ∧ c !! "name" = Some (name r)
  ∧ c !! "value" = Some (value r)
  ∧ path r = default PNone (c !! "path")
  ∧ domain r = default PNone (c !! "domain")
  ∧ secure r = default (PBool false) (c !! "secure")
  ∧ httpOnly r = default (PBool false) (c !! "httpOnly")
  ∧ (truth (default PNone (c !! "expiry")) = false → expiry r = PNone)
  ∧ (truth (default PNone (c !! "expiry")) = true →
     ∃ dt, fromtimestamp (default PNone (c !! "expiry")) = Ok dt
           ∧ expiry r = PDatetime dt).
Proof.
  unfold CookieInformation__init__. case_bool_decide as Hdom; [| discriminate].
  simpl. destruct (c !! "name") as [n |]; [| discriminate].
  destruct (c !! "value") as [v |]; [| discriminate].
  destruct (truth (default PNone (c !! "expiry"))) eqn:Htruth.
  - destruct (fromtimestamp (default PNone (c !! "expiry"))) as [dt | e];
      [| discriminate].
    simpl. intros [= <-]. simpl. repeat split; try done. eauto.
  - simpl. intros [= <-]. simpl. repeat split; done.
Qed.

(** What a successful [get_cookie] tells about the browser's answer. *)
Lemma get_cookie_inversion (n : pyval) (self s' : Self) (r : CookieInformation) :
  get_cookie n self = (Ok r, s') →
  ∃ c, on_browser (wd_get_cookie n) self = (Ok (Some c), s')
       ∧ c ≠ ∅ ∧ CookieInformation__init__ c = Ok r.
Proof.
  unfold get_cookie, bind.
  destruct (on_browser (wd_get_cookie n) self) as [[[c |] | e] s1];
    [| discriminate | discriminate].
  case_bool_decide as Hempty; [discriminate |].
  unfold lift. intros [= Hinit <-]. eauto.
Qed.

(** X1.  [get_cookie_value] agrees with [get_cookie]: whenever [get_cookie]
    returns a record, [get_cookie_value] returns the [value] of that record
    and leaves the library in the same state. *)
Theorem get_cookie_value_agrees_with_get_cookie
    (n : pyval) (self s' : Self) (r : CookieInformation) :
  get_cookie n self = (Ok r, s') →
  get_cookie_value n self = (Ok (value r), s').
Proof.
  intros (c & Hget & _ & Hinit)%get_cookie_inversion.
  apply CookieInformation_inversion in Hinit as (_ & _ & Hvalue & _).
  unfold get_cookie_value, bind. rewrite Hget.
  unfold lift, getitem. now rewrite Hvalue.
Qed.

(** X2.  The two keywords differ on what is missing.  For [None] from the
    browser [get_cookie_value] raises [ValueError], with the name unquoted
    in the message; for a dictionary without a [value], the empty one
    included, it raises [KeyError], where [get_cookie] on the empty
    dictionary raises [CookieNotFound]. *)
Theorem get_cookie_value_missing
    (n : pyval) (self : Self) (br br' : Browser) (answer : option wire_map) :
  _browsers_current self = Some br →
  wd_get_cookie n br = (Ok answer, br') →
  (∀ c, answer = Some c → c !! "value" = None) →
  get_cookie_value n self
  = (Raise (match answer with
            | None => mk_exn ValueError
                        ("Cookie with name " +:+ str n +:+ " not found.")
            | Some _ => mk_exn KeyError "'value'"
            end),
     set_browser br' self)
  ∧ (answer = Some ∅ →
     get_cookie n self
     = (Raise (mk_exn CookieNotFound
                 ("Cookie with name '" +:+ str n +:+ "' not found.")),
        set_browser br' self)).
Proof.
  intros Hopen Hget Hvalue. split.
  - unfold get_cookie_value, bind.
    rewrite (on_browser_open _ _ _ Hopen), Hget. cbn [fst snd].
    destruct answer as [c |]; [| reflexivity].
    unfold lift, getitem. now rewrite (Hvalue c eq_refl).
  - intros ->. unfold get_cookie, bind.
    rewrite (on_browser_open _ _ _ Hopen), Hget. cbn [fst snd].
    now rewrite bool_decide_eq_true_2.
Qed.

(** X3.  A dictionary from the browser that is not empty and has a key
    outside the seven parameters of [CookieInformation], or lacks [name] or
    [value], makes [get_cookie] fail with [TypeError]. *)
Theorem get_cookie_rejects_unknown_keys
    (n : pyval) (self : Self) (br br' : Browser) (c : wire_map) :
  _browsers_current self = Some br →
  wd_get_cookie n br = (Ok (Some c), br') →
  c ≠ ∅ →
  ¬ dom c ⊆ parameters ∨ c !! "name" = None ∨ c !! "value" = None →
  ∃ e, get_cookie n self = (Raise e, set_browser br' self)
       ∧ exn_class e = TypeError.
Proof.
  intros Hopen Hget Hne Hbad. unfold get_cookie, bind.
  rewrite (on_browser_open _ _ _ Hopen), Hget. cbn [fst snd].
  rewrite (bool_decide_eq_false_2 _ Hne).
  unfold lift, CookieInformation__init__.
  case_bool_decide as Hdom; simpl; [| eauto].
  destruct Hbad as [Hbad | [Hbad | Hbad]]; [done | |].
  - rewrite Hbad. eauto.
  - rewrite Hbad. destruct (c !! "name"); eauto.
Qed.


(** *** Without a browser *)

(** X5.  With no browser open every cookie keyword that reaches the browser
    raises [RuntimeError("No browser is open")] and changes nothing.
    [add_cookie] builds its dictionary first: when that fails, for an
    expiry it cannot read, the error of the expiry is raised instead. *)
Theorem cookie_keywords_need_a_browser
    (n v p d s x : pyval) (self : Self) :
  _browsers_current self = None →
  get_cookies self = (Raise no_browser_is_open, self)
  ∧ get_cookie n self = (Raise no_browser_is_open, self)
  ∧ get_cookie_value n self = (Raise no_browser_is_open, self)
  ∧ delete_cookie n self = (Raise no_browser_is_open, self)
  ∧ delete_all_cookies self = (Raise no_browser_is_open, self)
  ∧ add_cookie n v p d s x self
    = (Raise (match new_cookie n v p d s x with
              | Ok _ => no_browser_is_open
              | Raise e => e
              end), self).
Proof.
  intros Hclosed.
  assert (∀ A (method : M Browser A),
            on_browser method self = (Raise no_browser_is_open, self)) as Hon.
  { intros A method. unfold on_browser, browser, bind. now rewrite Hclosed. }
  repeat split.
  - unfold get_cookies, bind. now rewrite Hon.
  - unfold get_cookie, bind. now rewrite Hon.
  - unfold get_cookie_value, bind. now rewrite Hon.
  - apply Hon.
  - apply Hon.
  - unfold add_cookie, bind, lift.
    destruct (new_cookie n v p d s x); [apply Hon | reflexivity].
Qed.

(** *** [get_cookies] on a cookie without a name or a value *)

Lemma get_cookies_pairs_prefix cookies nvs rest (pairs : list pyval) :
  Forall2 carries cookies nvs →
  get_cookies_pairs (cookies ++ rest) pairs
  = get_cookies_pairs rest (pairs ++ map (fun nv => PStr (pair_of nv)) nvs).
Proof.
  intros Hall. revert pairs.
  induction Hall as [| cookie nv cookies nvs [Hn Hv] _ IH]; intros pairs.
  - simpl. now rewrite app_nil_r.
  - simpl. unfold getitem. rewrite Hn, Hv. simpl.
    rewrite IH. now rewrite <- app_assoc.
Qed.

(** X6.  [get_cookies] stops at the first cookie that lacks [name], or
    that has a string name and lacks [value]: it raises [KeyError] for the
    missing key and returns no string, whatever cookies follow. *)
Theorem get_cookies_missing_key (self : Self) (br br' : Browser)
    (good rest : list wire_map) (c : wire_map)
    (nvs : list (string * string)) (key : string) :
  _browsers_current self = Some br →
  wd_get_cookies br = (Ok (good ++ c :: rest), br') →
  Forall2 carries good nvs →
  (key = "name" ∧ c !! "name" = None)
  ∨ (key = "value" ∧ (∃ n, c !! "name" = Some (PStr n)) ∧ c !! "value" = None) →
  get_cookies self
  = (Raise (mk_exn KeyError ("'" +:+ key +:+ "'")), set_browser br' self).
Proof.
  intros Hopen Hget Hgood Hbad. unfold get_cookies, bind.
  rewrite (on_browser_open _ _ _ Hopen), Hget. cbn [fst snd]. unfold lift.
  rewrite (get_cookies_pairs_prefix _ _ _ _ Hgood). simpl. unfold getitem.
  destruct Hbad as [[-> Hn] | (-> & [n Hn] & Hv)].
  - now rewrite Hn.
  - rewrite Hn. simpl. now rewrite Hv.
Qed.

(** *** The keywords work on the browser only *)

Lemma browser_only_ret {A} (a : A) :
  browser_only (Browser := Browser) (ret a).
Proof. intros s. simpl. tauto. Qed.

Lemma browser_only_raise {A} (e : exn) :
  browser_only (Browser := Browser) (raise (A := A) e).
Proof. intros s. simpl. tauto. Qed.

Lemma browser_only_lift {A} (r : result A) :
  browser_only (Browser := Browser) (lift r).
Proof. intros s. simpl. tauto. Qed.

Lemma browser_only_bind {A B} (m : M Self A) (f : A → M Self B) :
  browser_only m → (∀ a, browser_only (f a)) → browser_only (bind m f).
Proof.
  intros Hm Hf s. unfold bind. specialize (Hm s).
  destruct (m s) as [[a | e] s1]; simpl in *; [| exact Hm].
  destruct (Hf a s1) as (Hk & Hg & Hw & Hb).
  destruct Hm as (Hk' & Hg' & Hw' & Hb').
  rewrite Hk, Hg, Hw, Hb. tauto.
Qed.

Lemma browser_only_on_browser {A} (method : M Browser A) :
  browser_only (on_browser method).
Proof.
  intros s. unfold on_browser, browser, bind.
  destruct (_browsers_current s) as [br |] eqn:Hopen; simpl.
  - destruct (method br) as [r br']. simpl. repeat split; eauto.
  - rewrite Hopen. repeat split; intros [? ?]; discriminate.
Qed.

(** X7.  No cookie keyword touches the failure hook: whatever the browser
    does, the run-on-failure keyword, the guard and the warnings are the
    same afterwards, and the library has a browser exactly when it had one
    before. *)
Theorem cookie_keywords_work_on_the_browser_only (n v p d s x : pyval) :
  browser_only get_cookies
  ∧ browser_only (get_cookie n)
  ∧ browser_only (get_cookie_value n)
  ∧ browser_only (add_cookie n v p d s x)
  ∧ browser_only (delete_cookie n)
  ∧ browser_only delete_all_cookies.
Proof.
  repeat apply conj.
  - unfold get_cookies.
    apply browser_only_bind; [apply browser_only_on_browser | intros cookies].
    apply browser_only_bind; [apply browser_only_lift | intros pairs].
    apply browser_only_lift.
  - unfold get_cookie.
    apply browser_only_bind; [apply browser_only_on_browser |].
    intros [c |]; [| apply browser_only_raise].
    case_bool_decide; [apply browser_only_raise | apply browser_only_lift].
  - unfold get_cookie_value.
    apply browser_only_bind; [apply browser_only_on_browser |].
    intros [c |]; [apply browser_only_lift | apply browser_only_raise].
  - unfold add_cookie.
    apply browser_only_bind; [apply browser_only_lift | intros c].
    apply browser_only_on_browser.
  - apply browser_only_on_browser.
  - apply browser_only_on_browser.
Qed.

(** *** What [add_cookie] writes *)

(** The optional entries of the dictionary, apart from the expiry. *)
Lemma new_cookie_optional (n v p d s x : pyval) (m : wire_map) :
  new_cookie n v p d s x = Ok m →
  m !! "path" = (if is_noney p then None else Some p)
  ∧ m !! "domain" = (if is_noney d then None else Some d)
  ∧ m !! "secure"
    = (if is_noney s then None else Some (PBool (is_truthy s))).
Proof.
  unfold new_cookie. intros Hnew.
  destruct (is_noney p), (is_noney d), (is_noney s), (is_noney x);
    simpl in Hnew;
    try (destruct (_expiry x); simpl in Hnew; [| discriminate]);
    injection Hnew as <-; repeat apply conj; lookup_keys.
Qed.

Lemma new_cookie_without_expiry (n v p d s x : pyval) (m : wire_map) :
  new_cookie n v p d s x = Ok m →
  is_noney x = true →
  m !! "expiry" = None.
Proof.
  unfold new_cookie. intros Hnew Hnone. rewrite Hnone in Hnew.
  destruct (is_noney p), (is_noney d), (is_noney s); simpl in Hnew;
    injection Hnew as <-; lookup_keys.
Qed.

(** X8.  The dictionary [add_cookie] sends holds an optional argument
    exactly when the argument is not none-like: path and domain as they
    are given, secure as the boolean [is_truthy] makes of it, and the
    expiry as the integer [_expiry] makes of it. *)
Theorem add_cookie_optional_entries (n v p d s x : pyval) (m : wire_map) :
  new_cookie n v p d s x = Ok m →
  m !! "path" = (if is_noney p then None else Some p)
  ∧ m !! "domain" = (if is_noney d then None else Some d)
  ∧ m !! "secure" = (if is_noney s then None else Some (PBool (is_truthy s)))
  ∧ (if is_noney x then m !! "expiry" = None
     else ∃ e, _expiry x = Ok e ∧ m !! "expiry" = Some (PInt e)).
Proof.
  intros Hnew.
  destruct (new_cookie_optional _ _ _ _ _ _ _ Hnew) as (Hp & Hd & Hs).
  repeat (split; [assumption |]).
  destruct (is_noney x) eqn:Hx.
  - now apply (new_cookie_without_expiry _ _ _ _ _ _ _ Hnew).
  - destruct (_expiry x) as [e | err] eqn:Hexp.
    + exists e. split; [reflexivity |].
      destruct (Scenario.new_cookie_with_expiry n v p d s x e Hx Hexp)
        as (m' & Hm' & Hlook).
      congruence.
    + unfold new_cookie in Hnew. rewrite Hx, Hexp in Hnew.
      destruct (is_noney p), (is_noney d), (is_noney s); discriminate.
Qed.

(** X9.  An expiry that [_expiry] cannot read makes [add_cookie] raise the
    error of [_expiry] before the browser is asked for: nothing is sent and
    nothing changes, with or without a browser.  A [datetime], which is
    what [get_cookie] returns as the expiry, is such a value: [int] raises
    [TypeError] for it, and only [ValueError] leads to [convert_date]. *)
Theorem add_cookie_unreadable_expiry (n v p d s x : pyval) (self : Self) :
  is_noney x = false →
  (∀ e, _expiry x = Raise e → add_cookie n v p d s x self = (Raise e, self))
  ∧ (∀ dt, x = PDatetime dt →
           ∃ e, _expiry x = Raise e ∧ exn_class e = TypeError).
Proof.
  intros Hx. split.
  - intros e Hexp. unfold add_cookie, bind, lift, new_cookie.
    rewrite Hx, Hexp. reflexivity.
  - intros dt ->. eexists. split; reflexivity.
Qed.

(** X10.  A cookie added without an expiry and read back from a browser
    that returns what it was given: the record has the name and the value,
    the path and the domain that were given, or [None] for a none-like
    one, the boolean of the secure argument, or [False] for a none-like
    one, [httpOnly] at [False] and no expiry. *)
Theorem add_cookie_then_get_cookie (n v p d s x : pyval) (self : Self)
    (br : Browser) :
  _browsers_current self = Some br →
  is_noney x = true →
  (∀ (m : wire_map) b,
     m !! "name" = Some n →
     ∃ b1 b2, wd_add_cookie m b = (Ok tt, b1)
              ∧ wd_get_cookie n b1 = (Ok (Some m), b2)) →
  ∃ s1 s2,
    add_cookie n v p d s x self = (Ok tt, s1)
    ∧ get_cookie n s1
      = (Ok (mkCookieInformation n v
               (if is_noney p then PNone else p)
               (if is_noney d then PNone else d)
               (if is_noney s then PBool false else PBool (is_truthy s))
               (PBool false) PNone),
         s2).
Proof.
  intros Hopen Hx Hecho.
  destruct (new_cookie n v p d s x) as [m | e] eqn:Hnew.
  2: { unfold new_cookie in Hnew. rewrite Hx in Hnew. discriminate. }
  destruct (new_cookie_keys _ _ _ _ _ _ _ Hnew) as (Hn & Hv & Hdom & Hhttp).
  destruct (new_cookie_optional _ _ _ _ _ _ _ Hnew) as (Hp & Hd & Hs).
  pose proof (new_cookie_without_expiry _ _ _ _ _ _ _ Hnew Hx) as He.
  destruct (Hecho m br Hn) as (b1 & b2 & Hadd & Hget).
  exists (set_browser b1 self), (set_browser b2 (set_browser b1 self)).
  split.
  - unfold add_cookie, bind, lift. rewrite Hnew.
    rewrite (on_browser_open _ _ _ Hopen), Hadd. reflexivity.
  - unfold get_cookie, bind.
    rewrite (on_browser_open _ (set_browser b1 self) b1 eq_refl), Hget.
    cbn [fst snd].
    rewrite bool_decide_eq_false_2.
    2: { intros ->. rewrite lookup_empty in Hn. discriminate. }
    unfold lift. f_equal.
    rewrite (CookieInformation_fields m n v);
      [| etrans; [exact Hdom | exact Scenario.add_cookie_keys_are_parameters]
       | exact Hn | exact Hv].
    rewrite He, Hp, Hd, Hs, Hhttp. simpl.
    now destruct (is_noney p), (is_noney d), (is_noney s).
Qed.

(** *** [CookieInformation.__str__] *)

Lemma count_newlines_app (s t : string) :
  count_newlines (s +:+ t) = (count_newlines s + count_newlines t)%nat.
Proof.
  induction s as [| c s IH]; [reflexivity |].
  simpl. rewrite IH. lia.
Qed.

(** X11.  The text of a cookie has one line per attribute: when the text
    of no attribute holds a line feed, [__str__] has exactly six of them,
    between the seven lines from [name] to [expiry]. *)
Theorem cookie_text_has_seven_lines (c : CookieInformation) :
  Forall (fun iv => count_newlines (str iv.2) = 0%nat) (items c) →
  count_newlines (CookieInformation__str__ c) = 6%nat.
Proof.
  unfold CookieInformation__str__, items. intros Hflat.
  repeat match goal with
         | H : Forall _ (_ :: _) |- _ =>
             apply Forall_cons in H as [? H]
         end.
  simpl in *. rewrite !count_newlines_app. simpl.
  repeat match goal with
         | H : count_newlines _ = 0%nat |- _ => rewrite H; clear H
         end.
  reflexivity.
Qed.

End CookieMore.
End CookieMore.

(** * Further properties of the failure hook *)

Module FacadeMore.
Import Py Builtins Library FailureHook.

Section FacadeMore.
Context {Browser : Type} {host : Host Browser}.

Local Abbreviation Self := (SeleniumLibrary Browser).

(** X12.  [run_keyword] hands on what the keyword returns or raises.  As
    long as the run-on-failure keyword raises nothing but [Exception]s, the
    outcome of [run_keyword] is the outcome of the keyword; and when the
    keyword returns, or raises what is no [Exception], the state is the
    keyword's too: the hook is not run. *)
Theorem run_keyword_keeps_outcome
    (name : string) (args : list pyval) (kwargs : list (string * pyval))
    (self : Self) :
  (∀ err s,
     BuiltIn_run_keyword
       (run_on_failure_keyword (DynamicCore_run_keyword name args kwargs self).2)
       (set_running true (DynamicCore_run_keyword name args kwargs self).2)
     = (Raise err, s) →
     is_Exception err = true) →
  (run_keyword name args kwargs self).1
  = (DynamicCore_run_keyword name args kwargs self).1
  ∧ (match (DynamicCore_run_keyword name args kwargs self).1 with
     | Ok _ => True
     | Raise e => is_Exception e = false
     end →
     run_keyword name args kwargs self
     = DynamicCore_run_keyword name args kwargs self).
Proof.
  intros Hhook. unfold run_keyword, try_except.
  destruct (DynamicCore_run_keyword name args kwargs self) as [[v | e] s1];
    simpl in *; [split; reflexivity |].
  destruct (is_Exception e) eqn:He.
  - split; [| discriminate]. unfold bind, raise.
    destruct (failure_occurred_returns s1 Hhook) as [s2 Hdisp].
    now rewrite Hdisp.
  - split; reflexivity.
Qed.

(** X13.  When the run-on-failure keyword raises what is no [Exception]
    (a keyboard interrupt, a system exit), [except Exception] lets it
    pass: [run_keyword] raises that instead of the failure of the keyword,
    nothing is logged, and the guard is lowered all the same. *)
Theorem run_keyword_hook_escapes
    (name : string) (args : list pyval) (kwargs : list (string * pyval))
    (self s1 s2 : Self) (e err : exn) :
  DynamicCore_run_keyword name args kwargs self = (Raise e, s1) →
  is_Exception e = true →
  _running_on_failure_keyword s1 = false →
  truth (run_on_failure_keyword s1) = true →
  BuiltIn_run_keyword (run_on_failure_keyword s1) (set_running true s1)
  = (Raise err, s2) →
  is_Exception err = false →
  run_keyword name args kwargs self = (Raise err, set_running false s2)
  ∧ warnings (run_keyword name args kwargs self).2 = warnings s2
  ∧ _running_on_failure_keyword (run_keyword name args kwargs self).2 = false.
Proof.
  intros Hfail He Hrun Hkw Hhook Herr.
  assert (run_keyword name args kwargs self = (Raise err, set_running false s2))
    as Hresult.
  { unfold run_keyword, try_except. rewrite Hfail, He. unfold bind.
    now rewrite (failure_occurred_hook_escapes _ _ _ Hrun Hkw Hhook Herr). }
  rewrite Hresult. repeat split; reflexivity.
Qed.

(** X14.  With the run-on-failure keyword switched off ([None] or the
    empty string) when the keyword ends, [run_keyword] is the keyword
    itself: same outcome, same state, nothing run and nothing logged. *)
Theorem run_keyword_without_hook
    (name : string) (args : list pyval) (kwargs : list (string * pyval))
    (self : Self) :
  truth (run_on_failure_keyword
           (DynamicCore_run_keyword name args kwargs self).2) = false →
  run_keyword name args kwargs self
  = DynamicCore_run_keyword name args kwargs self.
Proof.
  intros Hoff. unfold run_keyword, try_except.
  destruct (DynamicCore_run_keyword name args kwargs self) as [[v | e] s1];
    [reflexivity |].
  destruct (is_Exception e); [| reflexivity].
  unfold bind, raise. simpl in Hoff.
  now rewrite (failure_occurred_disabled s1 Hoff).
Qed.

(** X15.  [run_keyword] leaves the guard as it finds it whenever the body
    of the keyword does, whatever the run-on-failure keyword does to it:
    up inside the hook, down outside of it. *)
Theorem run_keyword_keeps_guard
    (name : string) (args : list pyval) (kwargs : list (string * pyval)) :
  keeps_guard (DynamicCore_run_keyword name args kwargs) →
  keeps_guard (run_keyword name args kwargs).
Proof.
  intros Hbody self. specialize (Hbody self).
  unfold run_keyword, try_except.
  destruct (DynamicCore_run_keyword name args kwargs self) as [[v | e] s1];
    simpl in *; [exact Hbody |].
  destruct (is_Exception e); [| exact Hbody].
  unfold bind, raise.
  destruct (_running_on_failure_keyword self) eqn:Hguard.
  - rewrite (failure_occurred_guarded s1 Hbody). exact Hbody.
  - pose proof (failure_occurred_lowers_guard s1 Hbody) as Hdown.
    destruct (failure_occurred s1) as [[[] | err] s2]; exact Hdown.
Qed.

End FacadeMore.
End FacadeMore.

(** * The further properties on a browser that keeps a cookie jar *)

Module MoreOnJar.
Import Py Builtins Library Cookie Models CookieKeywords.

#[local] Existing Instance plain_interpreter.

Lemma get_cookie_value_agrees_with_get_cookie_witness :
  get_cookie_value (driver := jar_driver) (PStr "b")
    (library_on [cookie_a; cookie_b])
  = (Ok (PStr "2"), library_on [cookie_a; cookie_b]).
Proof.
  exact (CookieMore.get_cookie_value_agrees_with_get_cookie
           (dates := dates_at 0) (driver := jar_driver) (PStr "b")
           (library_on [cookie_a; cookie_b]) (library_on [cookie_a; cookie_b])
           (mkCookieInformation (PStr "b") (PStr "2") (PStr "/") PNone
              (PBool false) (PBool false) PNone)
           eq_refl).
Defined.

Lemma get_cookie_value_missing_witness :
  get_cookie_value (driver := jar_driver) (PStr "foo") (library_on [cookie_a])
  = (Raise (mk_exn ValueError "Cookie with name foo not found."),
     library_on [cookie_a]).
Proof.
  refine (proj1 (CookieMore.get_cookie_value_missing (dates := dates_at 0)
                   (driver := jar_driver) (PStr "foo") (library_on [cookie_a])
                   [cookie_a] [cookie_a] None eq_refl eq_refl _)).
  intros c Hc. discriminate.
Defined.

Lemma get_cookie_rejects_unknown_keys_witness :
  ∃ e, get_cookie (dates := dates_at 0) (driver := jar_driver) (PStr "foo")
         (library_on [cookie_samesite])
       = (Raise e, library_on [cookie_samesite])
       ∧ exn_class e = TypeError.
Proof.
  refine (CookieMore.get_cookie_rejects_unknown_keys (dates := dates_at 0)
            (driver := jar_driver) (PStr "foo") (library_on [cookie_samesite])
            [cookie_samesite] [cookie_samesite] cookie_samesite
            eq_refl eq_refl _ _).
  - intros Hempty.
    assert (cookie_samesite !! "name" = (∅ : wire_map) !! "name") as Hname
      by now rewrite Hempty.
    vm_compute in Hname. discriminate.
  - left. intros Hdom.
    assert ("sameSite" ∈ parameters) as Hin.
    { apply Hdom, elem_of_dom. exists (PStr "Lax"). reflexivity. }
    apply RoundTrip.in_parameters in Hin.
    destruct Hin as [? | [? | [? | [? | [? | [? | ?]]]]]]; discriminate.
Defined.


Lemma cookie_keywords_need_a_browser_witness :
  get_cookie_value (driver := jar_driver) (PStr "foo") fresh
  = (Raise no_browser_is_open, fresh)
  ∧ add_cookie (utils := utils_spec) (dates := dates_at 0)
      (driver := jar_driver) (PStr "foo") (PStr "bar") PNone PNone PNone
      (PStr "tomorrow") fresh
    = (Raise (mk_exn ValueError "Invalid timestamp 'tomorrow'."), fresh).
Proof.
  destruct (CookieMore.cookie_keywords_need_a_browser (utils := utils_spec)
              (dates := dates_at 0) (driver := jar_driver)
              (PStr "foo") (PStr "bar") PNone PNone PNone (PStr "tomorrow")
              fresh eq_refl) as (_ & _ & Hvalue & _ & _ & Hadd).
  split; [exact Hvalue | exact Hadd].
Defined.

Lemma get_cookies_missing_key_witness :
  get_cookies (driver := jar_driver)
    (library_on [cookie_a; cookie_nameless; cookie_b])
  = (Raise (mk_exn KeyError "'name'"),
     library_on [cookie_a; cookie_nameless; cookie_b]).
Proof.
  refine (CookieMore.get_cookies_missing_key (driver := jar_driver)
            (library_on [cookie_a; cookie_nameless; cookie_b])
            [cookie_a; cookie_nameless; cookie_b]
            [cookie_a; cookie_nameless; cookie_b]
            [cookie_a] [cookie_b] cookie_nameless [("a", "1")] "name"
            eq_refl eq_refl _ _).
  - repeat constructor.
  - left. split; reflexivity.
Defined.

Lemma add_cookie_optional_entries_witness :
  new_cookie (utils := utils_spec) (dates := dates_at 0)
    (PStr "foo") (PStr "bar") (PStr "/") PNone (PStr "no") PNone
  = Ok (<["secure" := PBool false]> (<["path" := PStr "/"]> cookie_foo))
  ∧ (<["secure" := PBool false]> (<["path" := PStr "/"]> cookie_foo) : wire_map)
      !! "domain" = None.
Proof.
  assert (new_cookie (utils := utils_spec) (dates := dates_at 0)
            (PStr "foo") (PStr "bar") (PStr "/") PNone (PStr "no") PNone
          = Ok (<["secure" := PBool false]> (<["path" := PStr "/"]> cookie_foo)))
    as Hnew by reflexivity.
  split; [exact Hnew |].
  exact (proj1 (proj2 (CookieMore.add_cookie_optional_entries
                         (utils := utils_spec) (dates := dates_at 0)
                         _ _ _ _ _ _ _ Hnew))).
Defined.

Lemma add_cookie_unreadable_expiry_witness :
  ∃ e, add_cookie (utils := utils_spec) (dates := dates_at 0)
         (driver := jar_driver) (PStr "foo") (PStr "bar") PNone PNone PNone
         (PDatetime local_2027) (library_on [])
       = (Raise e, library_on [])
       ∧ exn_class e = TypeError.
Proof.
  destruct (CookieMore.add_cookie_unreadable_expiry (utils := utils_spec)
              (dates := dates_at 0) (driver := jar_driver)
              (PStr "foo") (PStr "bar") PNone PNone PNone
              (PDatetime local_2027) (library_on []) eq_refl)
    as [Hraise Hdatetime].
  destruct (Hdatetime local_2027 eq_refl) as (e & Hexp & Hclass).
  exists e. split; [now apply Hraise | exact Hclass].
Defined.

Lemma add_cookie_then_get_cookie_witness :
  ∃ s1 s2,
    add_cookie (utils := utils_spec) (dates := dates_at 0)
      (driver := jar_driver) (PStr "foo") (PStr "bar") (PStr "/") PNone
      (PStr "yes") PNone (library_on []) = (Ok tt, s1)
    ∧ get_cookie (dates := dates_at 0) (driver := jar_driver) (PStr "foo") s1
      = (Ok (mkCookieInformation (PStr "foo") (PStr "bar") (PStr "/") PNone
               (PBool true) (PBool false) PNone), s2).
Proof.
  apply (CookieMore.add_cookie_then_get_cookie (utils := utils_spec)
           (dates := dates_at 0) (driver := jar_driver)
           (PStr "foo") (PStr "bar") (PStr "/") PNone (PStr "yes") PNone
           (library_on []) [] eq_refl eq_refl).
  intros m b. apply OnJar.jar_gives_back.
Defined.

Lemma cookie_text_has_seven_lines_witness :
  count_newlines
    (CookieInformation__str__
       (mkCookieInformation (PStr "foo") (PStr "bar") PNone PNone
          (PBool false) (PBool false) (PDatetime local_2027))) = 6%nat.
Proof.
  apply CookieMore.cookie_text_has_seven_lines.
  repeat constructor.
Defined.

(** *** The failure hook *)

Lemma run_keyword_keeps_outcome_witness :
  (run_keyword (host := bare_host) "get_cookies" [] [] fresh).1
  = Raise no_browser_is_open.
Proof.
  refine (proj1 (FacadeMore.run_keyword_keeps_outcome (host := bare_host)
                   "get_cookies" [] [] fresh _)).
  intros err s Hraise. inversion Hraise. reflexivity.
Defined.

Lemma run_keyword_hook_escapes_witness :
  run_keyword (host := interrupted_host) "get_cookies" [] [] fresh
  = (Raise (mk_exn KeyboardInterrupt ""), fresh).
Proof.
  exact (proj1 (FacadeMore.run_keyword_hook_escapes (host := interrupted_host)
                  "get_cookies" [] [] fresh fresh (set_running true fresh)
                  no_browser_is_open (mk_exn KeyboardInterrupt "")
                  eq_refl eq_refl eq_refl eq_refl eq_refl eq_refl)).
Defined.

Lemma run_keyword_without_hook_witness :
  run_keyword (host := bare_host) "get_cookies" [] [] silent
  = (Raise no_browser_is_open, silent).
Proof.
  exact (FacadeMore.run_keyword_without_hook (host := bare_host)
           "get_cookies" [] [] silent eq_refl).
Defined.

Lemma run_keyword_keeps_guard_witness :
  _running_on_failure_keyword
    (run_keyword (host := bare_host) "get_cookie" [PStr "foo"] []
       (set_running true fresh)).2 = true.
Proof.
  apply (FacadeMore.run_keyword_keeps_guard (host := bare_host)
           "get_cookie" [PStr "foo"] []).
  cbn [DynamicCore_run_keyword bare_host].
  apply FailureHook.keeps_guard_cookie_keywords.
Defined.

End MoreOnJar.
